(** * sqlmodel: the code generator of Ficoto/sqlmodel, embedded and verified

    The Go package [generator] reads the schema of a database and writes
    one Go source file per table.  This development embeds its functions
    ([ensureIdentifier], [writeToFile], [convertToExportedIdentifier],
    [getType], [getTag], [generateTable], [Generate]) and proves the
    properties its specification states about them.

    Go strings are byte sequences, so a string is a [String.string] whose
    characters are read as bytes; runes are code points in [Z]. *)

From Stdlib Require Import ZArith List Bool Lia Ascii String.
From stdpp Require Import base option list gmap strings.

Local Open Scope string_scope.
Local Open Scope Z_scope.

(** ** Bytes and runes *)

Definition rune := Z.

Definition byteval (c : ascii) : Z := Z.of_N (N_of_ascii c).
Definition byte_of (z : Z) : ascii := ascii_of_N (Z.to_N z).

Definition RuneSelf : Z := 0x80.
Definition RuneError : rune := 0xFFFD.
Definition MaxRune : rune := 0x10FFFF.
Definition MaxLatin1 : rune := 0xFF.

(** The bytes of a string, and back. *)
Fixpoint bytes (s : string) : list Z :=
  match s with
  | EmptyString => []
  | String c s' => byteval c :: bytes s'
  end.

Fixpoint of_bytes (l : list Z) : string :=
  match l with
  | [] => EmptyString
  | b :: l' => String (byte_of b) (of_bytes l')
  end.

(** [s[n:]] for [n <= len(s)]. *)
Fixpoint drop_bytes (n : nat) (s : string) : string :=
  match n, s with
  | O, _ => s
  | S k, String _ s' => drop_bytes k s'
  | S _, EmptyString => EmptyString
  end.

(** *** unicode/utf8

    [leadByte b] is the entry of utf8's table [first] for the byte [b]:
    [None] for an ASCII or an invalid lead byte, otherwise the length of
    the sequence and the range accepted for its second byte. *)
Definition leadByte (b : Z) : option (nat * Z * Z) :=
  if (0xC2 <=? b) && (b <=? 0xDF) then Some (2%nat, 0x80, 0xBF)
  else if b =? 0xE0 then Some (3%nat, 0xA0, 0xBF)
  else if b =? 0xED then Some (3%nat, 0x80, 0x9F)
  else if (0xE1 <=? b) && (b <=? 0xEF) then Some (3%nat, 0x80, 0xBF)
  else if b =? 0xF0 then Some (4%nat, 0x90, 0xBF)
  else if (0xF1 <=? b) && (b <=? 0xF3) then Some (4%nat, 0x80, 0xBF)
  else if b =? 0xF4 then Some (4%nat, 0x80, 0x8F)
  else None.

Definition isCont (b : Z) : bool := (0x80 <=? b) && (b <=? 0xBF).

(** utf8.DecodeRuneInString: the first rune of [s] and its width in bytes.
    An invalid or truncated sequence decodes to [(RuneError, 1)], the empty
    string to [(RuneError, 0)]. *)
Definition DecodeRuneInString (s : string) : rune * nat :=
  match bytes s with
  | [] => (RuneError, 0%nat)
  | s0 :: rest =>
    match leadByte s0 with
    | None => (if s0 <? RuneSelf then s0 else RuneError, 1%nat)
    | Some (sz, lo, hi) =>
      match rest with
      | [] => (RuneError, 1%nat)
      | s1 :: rest1 =>
        if (s1 <? lo) || (hi <? s1) then (RuneError, 1%nat)
        else if (sz <=? 2)%nat then
          (Z.lor (Z.shiftl (Z.land s0 0x1F) 6) (Z.land s1 0x3F), 2%nat)
        else
          match rest1 with
          | [] => (RuneError, 1%nat)
          | s2 :: rest2 =>
            if negb (isCont s2) then (RuneError, 1%nat)
            else if (sz <=? 3)%nat then
              (Z.lor (Z.lor (Z.shiftl (Z.land s0 0x0F) 12)
                            (Z.shiftl (Z.land s1 0x3F) 6))
                     (Z.land s2 0x3F), 3%nat)
            else
              match rest2 with
              | [] => (RuneError, 1%nat)
              | s3 :: _ =>
                if negb (isCont s3) then (RuneError, 1%nat)
                else
                  (Z.lor (Z.lor (Z.lor (Z.shiftl (Z.land s0 0x07) 18)
                                       (Z.shiftl (Z.land s1 0x3F) 12))
                                (Z.shiftl (Z.land s2 0x3F) 6))
                         (Z.land s3 0x3F), 4%nat)
              end
          end
      end
    end
  end.

(** The runes a [for _, r := range s] loop visits: [skip] counts the bytes
    of the current rune that are still to be passed over. *)
Fixpoint runesFrom (skip : nat) (s : string) : list rune :=
  match s with
  | EmptyString => []
  | String _ s' =>
    match skip with
    | S k => runesFrom k s'
    | O => let '(r, size) := DecodeRuneInString s in
           r :: runesFrom (size - 1) s'
    end
  end.

Definition runes (s : string) : list rune := runesFrom 0 s.

(** [string(r)] for a rune [r]: its UTF-8 encoding, and that of
    [RuneError] for a surrogate or a value out of range. *)
Definition encodeRune (r : rune) : string :=
  if (0 <=? r) && (r <? 0x80) then of_bytes [r]
  else if (0 <=? r) && (r <? 0x800) then
    of_bytes [Z.lor 0xC0 (Z.shiftr r 6); Z.lor 0x80 (Z.land r 0x3F)]
  else if (r <? 0) || (MaxRune <? r) || ((0xD800 <=? r) && (r <=? 0xDFFF)) then
    of_bytes [0xEF; 0xBF; 0xBD]
  else if r <? 0x10000 then
    of_bytes [Z.lor 0xE0 (Z.shiftr r 12);
              Z.lor 0x80 (Z.land (Z.shiftr r 6) 0x3F);
              Z.lor 0x80 (Z.land r 0x3F)]
  else
    of_bytes [Z.lor 0xF0 (Z.shiftr r 18);
              Z.lor 0x80 (Z.land (Z.shiftr r 12) 0x3F);
              Z.lor 0x80 (Z.land (Z.shiftr r 6) 0x3F);
              Z.lor 0x80 (Z.land r 0x3F)].

Definition isASCII (s : string) : bool := forallb (fun b => b <? RuneSelf) (bytes s).

(** *** ASCII classes *)
Definition isAsciiUpper (r : Z) : bool := (65 <=? r) && (r <=? 90).
Definition isAsciiLower (r : Z) : bool := (97 <=? r) && (r <=? 122).
Definition isAsciiDigit (r : Z) : bool := (48 <=? r) && (r <=? 57).
Definition isAsciiAlnum (r : Z) : bool :=
  isAsciiUpper r || isAsciiLower r || isAsciiDigit r.
(** The class [\w] of Go's regexp: [[0-9A-Za-z_]]. *)
Definition isWordChar (r : Z) : bool := isAsciiAlnum r || (r =? 95).

(** ** The unicode package

    Go's unicode functions answer from a fixed table for the Latin-1 block
    and from the Unicode range tables above it.  The Latin-1 block is
    written out here; the range tables above U+00FF belong to the Go
    distribution and are a parameter of the development. *)
Record UnicodeTables := {
  tblIsLetter : rune -> bool;
  tblIsDigit : rune -> bool;
  tblIsUpper : rune -> bool;
  tblToUpper : rune -> rune;
  tblToLower : rune -> rune;
  (** [tblFold sr tr]: [tr] is reached from [sr] by unicode.SimpleFold. *)
  tblFold : rune -> rune -> bool
}.

(** Tables that know nothing above Latin-1. *)
Definition latin1Tables : UnicodeTables :=
  {| tblIsLetter := fun _ => false;
     tblIsDigit := fun _ => false;
     tblIsUpper := fun _ => false;
     tblToUpper := fun r => r;
     tblToLower := fun r => r;
     tblFold := fun _ _ => false |}.

Definition inLatin1 (r : rune) : bool := (0 <=? r) && (r <=? MaxLatin1).

Definition latin1Upper (r : rune) : bool :=
  isAsciiUpper r || ((0xC0 <=? r) && (r <=? 0xD6)) || ((0xD8 <=? r) && (r <=? 0xDE)).

Definition latin1Letter (r : rune) : bool :=
  isAsciiUpper r || isAsciiLower r
  || (r =? 0xAA) || (r =? 0xB5) || (r =? 0xBA)
  || ((0xC0 <=? r) && (r <=? 0xD6)) || ((0xD8 <=? r) && (r <=? 0xF6))
  || ((0xF8 <=? r) && (r <=? 0xFF)).

Section Unicode.
Variable U : UnicodeTables.

Definition IsLetter (r : rune) : bool :=
  if inLatin1 r then latin1Letter r else tblIsLetter U r.

Definition IsDigit (r : rune) : bool :=
  if inLatin1 r then isAsciiDigit r else tblIsDigit U r.

Definition IsUpper (r : rune) : bool :=
  if inLatin1 r then latin1Upper r else tblIsUpper U r.

Definition ToUpper (r : rune) : rune :=
  if r <? RuneSelf then (if isAsciiLower r then r - 32 else r)
  else if inLatin1 r then
    if r =? 0xB5 then 0x39C
    else if r =? 0xFF then 0x178
    else if ((0xE0 <=? r) && (r <=? 0xF6)) || ((0xF8 <=? r) && (r <=? 0xFE))
    then r - 32 else r
  else tblToUpper U r.

Definition ToLower (r : rune) : rune :=
  if r <? RuneSelf then (if isAsciiUpper r then r + 32 else r)
  else if inLatin1 r then
    if ((0xC0 <=? r) && (r <=? 0xD6)) || ((0xD8 <=? r) && (r <=? 0xDE))
    then r + 32 else r
  else tblToLower U r.

(** *** package strings *)

(** strings.ToLower: bytewise on an ASCII string, otherwise every rune
    is mapped by unicode.ToLower and encoded again. *)
Definition strings_ToLower (s : string) : string :=
  if isASCII s then
    of_bytes (map (fun b => if isAsciiUpper b then b + 32 else b) (bytes s))
  else
    String.concat "" (map (fun r => encodeRune (ToLower r)) (runes s)).

(** One step of strings.EqualFold on the runes [sr] and [tr]. *)
Definition foldEqRune (sr tr : rune) : bool :=
  if tr =? sr then true
  else
    let lo := Z.min sr tr in
    let hi := Z.max sr tr in
    if hi <? RuneSelf then isAsciiUpper lo && (hi =? lo + 32)
    else tblFold U lo hi.

(** The second loop of strings.EqualFold (label [hasUnicode]): [srs] are
    the runes of what is left of [s], [t] what is left of [t]. *)
Fixpoint equalFoldRunes (srs : list rune) (t : string) : bool :=
  match srs with
  | [] => match t with EmptyString => true | _ => false end
  | sr :: srs' =>
    match t with
    | EmptyString => false
    | String t0 t' =>
      let '(tr, size) :=
        if byteval t0 <? RuneSelf then (byteval t0, 1%nat)
        else DecodeRuneInString t in
      if foldEqRune sr tr then equalFoldRunes srs' (drop_bytes size t)
      else false
    end
  end.

(** strings.EqualFold: the bytewise loop for the common ASCII prefix,
    then the rune loop from the first byte that is not ASCII. *)
Fixpoint strings_EqualFold (s t : string) : bool :=
  match s, t with
  | String a s', String b t' =>
    let sr := byteval a in
    let tr := byteval b in
    if RuneSelf <=? Z.lor sr tr then equalFoldRunes (runes s) t
    else if tr =? sr then strings_EqualFold s' t'
    else if isAsciiUpper (Z.min sr tr) && (Z.max sr tr =? Z.min sr tr + 32)
    then strings_EqualFold s' t'
    else false
  | EmptyString, EmptyString => true
  | _, _ => false
  end.

Definition strings_HasPrefix (s prefix : string) : bool := String.prefix prefix s.

(** strings.ReplaceAll(s, "\n", " ") *)
Fixpoint replaceNewlines (s : string) : string :=
  match s with
  | EmptyString => EmptyString
  | String c s' =>
    String (if byteval c =? 10 then " "%char else c) (replaceNewlines s')
  end.

End Unicode.

(** ** Text helpers *)

Definition nl : string := String (ascii_of_nat 10) EmptyString.
Definition tab : string := String (ascii_of_nat 9) EmptyString.
Definition dquote : string := String (ascii_of_nat 34) EmptyString.

(** [isInfix p s]: the text [p] occurs in [s]. *)
Fixpoint isInfix (p s : string) : bool :=
  String.prefix p s ||
  match s with
  | EmptyString => false
  | String _ s' => isInfix p s'
  end.

(** strings.Split(s, ","): [cur] holds, reversed, the bytes since the last
    comma. *)
Fixpoint splitComma (cur : list ascii) (s : string) : list string :=
  match s with
  | EmptyString => [string_of_list_ascii (rev cur)]
  | String c s' =>
    if byteval c =? 44 then string_of_list_ascii (rev cur) :: splitComma [] s'
    else splitComma (c :: cur) s'
  end.

Definition strings_Split (s : string) : list string := splitComma [] s.

(** ** Data model (options.go, generator.go) *)

(** A Go [error] is kept as its message. *)
Definition error := string.

Inductive result (A : Type) : Type :=
| Ok (a : A)
| Err (e : error).
Arguments Ok {A} a.
Arguments Err {A} e.

Record fieldDescriptor := {
  Name : string;
  Type_ : string;
  Size : Z;
  Unsigned : bool;
  AllowNull : bool;
  Comment : string
}.

(** [getTag] and [Generate] read the field [tag] of [options]; the
    declaration shipped in options.go spells it [tags []string].  The field
    is taken here as the code uses it, a single string. *)
Record options := {
  dataSourceName : string;
  tableNames : list string;
  tag : string;
  forceCases : list string
}.

Record schemaFetcher := {
  GetDatabaseName : result string;
  GetTableNames : result (list string);
  GetFieldDescriptors : string -> result (list fieldDescriptor);
  QuoteIdentifier : string -> string
}.

(** ** Pure functions of generator.go *)

(** nonIdentifierRegexp.ReplaceAllString(name, "_") for the pattern [\W]:
    every rune outside [[0-9A-Za-z_]] (an invalid byte counts as one rune)
    becomes one underscore. *)
Definition replaceNonIdentifier (name : string) : string :=
  String.concat ""
    (map (fun r => if isWordChar r then encodeRune r else "_") (runes name)).

Definition startsWithDigit (s : string) : bool :=
  match s with
  | EmptyString => false
  | String c _ => (48 <=? byteval c) && (byteval c <=? 57)
  end.

Definition ensureIdentifier (name : string) : string :=
  let result := replaceNonIdentifier name in
  if (result =? "")%string || startsWithDigit result then "_" +:+ result
  else result.

Definition newBuffWithBaseHeader (dbName : string) : string :=
  "// This file is generated by sqlmodel (https://github.com/Ficoto/sqlmodel)" +:+ nl
  +:+ "// DO NOT EDIT." +:+ nl
  +:+ "package " +:+ ensureIdentifier dbName +:+ " " +:+ nl +:+ nl.

Section Generator.
Variable U : UnicodeTables.

(** [words[len(words)-1] += x]; on an empty slice the Go code would
    panic, which [splitWords_last] shows never happens. *)
Definition appendToLast (words : list string) (x : string) : list string :=
  match rev words with
  | [] => []
  | w :: ws => rev ws ++ [w +:+ x]
  end.

(** The first loop of [convertToExportedIdentifier]: the state is
    [words] and [nextCharShouldBeUpperCase]. *)
Definition splitStep (st : list string * bool) (r : rune) : list string * bool :=
  let '(words, nextCharShouldBeUpperCase) := st in
  if IsLetter U r || IsDigit U r then
    if nextCharShouldBeUpperCase then
      (appendToLast (words ++ [""]) (encodeRune (ToUpper U r)), false)
    else (appendToLast words (encodeRune r), false)
  else (words, true).

Definition splitWords (s : string) : list string :=
  fst (fold_left splitStep (runes s) ([], true)).

(** The inner loop over [forceCases]: the first word that folds to
    [word] replaces it. *)
Fixpoint forceCase (word : string) (forceCases : list string) : string :=
  match forceCases with
  | [] => word
  | caseWord :: rest =>
    if strings_EqualFold U word caseWord then caseWord
    else forceCase word rest
  end.

Definition joinWords (words forceCases : list string) : string :=
  fold_left (fun result word => result +:+ forceCase word forceCases) words "".

Definition firstRune (s : string) : rune :=
  match runes s with
  | [] => 0
  | r :: _ => r
  end.

Definition convertToExportedIdentifier (s : string) (forceCases : list string) : string :=
  let result := joinWords (splitWords s) forceCases in
  if (result =? "")%string || negb (IsUpper U (firstRune result))
  then "E" +:+ result
  else result.

Definition oneOf (t : string) (cases : list string) : bool :=
  existsb (String.eqb t) cases.

Definition getType (fd : fieldDescriptor) : result string :=
  let t := strings_ToLower U (Type_ fd) in
  let finish (goType : string) : result string :=
    let goType :=
      if Unsigned fd && strings_HasPrefix goType "int" then "u" +:+ goType
      else goType in
    let goType := if AllowNull fd then "*" +:+ goType else goType in
    Ok goType in
  if oneOf t ["tinyint"] then finish "int8"
  else if oneOf t ["smallint"] then finish "int16"
  else if oneOf t ["int"; "mediumint"] then finish "int32"
  else if oneOf t ["bigint"; "integer"] then finish "int64"
  else if oneOf t ["float"; "double"; "decimal"; "real"] then finish "float64"
  else if oneOf t ["char"; "varchar"; "text"; "tinytext"; "mediumtext";
                   "longtext"; "enum"; "json"; "numeric"; "character varying"]
  then finish "string"
  else if oneOf t ["datetime"; "date"; "time"; "timestamp"] then finish "time.Time"
  else if oneOf t ["binary"; "varbinary"; "blob"; "tinyblob"; "mediumblob"; "longblob"]
  then finish "string"
  else if oneOf t ["geometry"; "point"; "linestring"; "polygon"; "multipoint";
                   "multilinestring"; "multipolygon"; "geometrycollection"]
  then finish "sqlingo.WellKnownBinary"
  else if oneOf t ["bit"] then
    (if Size fd =? 1 then finish "bool" else finish "string")
  else Err ("unknown field type " +:+ Type_ fd).

Definition getTag (fd : fieldDescriptor) (opts : options) : string :=
  if (tag opts =? "gorm")%string
  then "`gorm:" +:+ dquote +:+ "column:" +:+ Name fd +:+ dquote +:+ "`"
  else "".

End Generator.

(** ** The world outside: files, standard streams

    A path is a regular file with its content, a node that exists but
    cannot be opened for writing (a directory, a read-only file), a path
    where os.Stat itself fails, or absent from the map: not there, and
    free to be created. The map is keyed by the path as the program
    spells it; that two spellings may name one file is not modelled, and
    no statement below relies on two paths being different files. *)
Inductive node :=
| RegularFile (content : string)
| Present (openErr : error)
| Unreachable (statErr : option error) (openErr : error).

Record World := {
  fs : gmap string node;
  (** what the successive calls of fmt.Scanln store, [""] once exhausted *)
  stdin : list string;
  stdout : string;
  stderr : string
}.

Definition M (A : Type) : Type := World -> A * World.

Definition ret {A} (a : A) : M A := fun w => (a, w).
Definition bind {A B} (m : M A) (k : A -> M B) : M B :=
  fun w => let '(a, w') := m w in k a w'.

Notation "'do' x <- m ; k" := (bind m (fun x => k))
  (at level 10, x name, m at level 100, k at level 200).
Notation "m ;; k" := (bind m (fun _ => k))
  (at level 100, k at level 200, right associativity).

Definition printStdout (text : string) : M unit :=
  fun w => (tt, {| fs := fs w; stdin := stdin w;
                   stdout := stdout w +:+ text; stderr := stderr w |}).

Definition printStderr (text : string) : M unit :=
  fun w => (tt, {| fs := fs w; stdin := stdin w;
                   stdout := stdout w; stderr := stderr w +:+ text |}).

(** fmt.Scanln(&override), [override] being empty before the call. *)
Definition Scanln : M string :=
  fun w => match stdin w with
           | [] => ("", w)
           | x :: rest => (x, {| fs := fs w; stdin := rest;
                                 stdout := stdout w; stderr := stderr w |})
           end.

(** os.Stat *)
Definition osStat (path : string) : M (result unit) :=
  fun w => (match fs w !! path with
            | Some (RegularFile _) | Some (Present _) => Ok tt
            | Some (Unreachable (Some e) _) => Err e
            | Some (Unreachable None _) | None => Err "file does not exist"
            end, w).

Definition isNotExist (path : string) : M bool :=
  fun w => (match fs w !! path with
            | Some (Unreachable None _) | None => true
            | _ => false
            end, w).

(** os.OpenFile(path, O_RDWR|O_CREATE|O_TRUNC, 0600) followed by
    f.WriteString(text) and the deferred f.Close(): the two results the
    code drops are not modelled, the text is written whole. *)
Definition openTruncWrite (path text : string) : M (option error) :=
  fun w => match fs w !! path with
           | Some (Present e) | Some (Unreachable _ e) => (Some e, w)
           | Some (RegularFile _) | None =>
             (None, {| fs := <[path := RegularFile text]> (fs w); stdin := stdin w;
                       stdout := stdout w; stderr := stderr w |})
           end.

(** ** Effectful functions of generator.go *)

Definition pathExists (path : string) : M (bool * option error) :=
  do st <- osStat path;
  match st with
  | Ok _ => ret (true, None)
  | Err e =>
    do notExist <- isNotExist path;
    if notExist then ret (false, None) else ret (false, Some e)
  end.

Definition overwritePrompt (outputFile : string) : string :=
  "file(" +:+ outputFile +:+ ") already exists，is overwritten(Y/N)? ".

Definition writeToFile (buffer outputFile : string) (force : bool) : M (option error) :=
  do ex <- pathExists outputFile;
  if fst ex && negb force then
    printStdout (overwritePrompt outputFile);;
    do override <- Scanln;
    if negb (override =? "Y")%string && negb (override =? "y")%string then
      printStdout ("skip" +:+ outputFile +:+ nl);;
      ret None
    else openTruncWrite outputFile buffer
  else openTruncWrite outputFile buffer.

(** The command-line flags of generator.go, as flag.Parse leaves them. *)
Module Flags.
Record t := {
  outputPath : string;
  databaseConnection : string;
  tables : string;
  tag : string;
  forcecases : string
}.
End Flags.

Section Render.
Variable U : UnicodeTables.
Variable flags : Flags.t.

(** One round of the loop over the field descriptors: the lines the
    field adds to [modeLinesBuf] and whether it sets [isNeedImportTime]. *)
Definition fieldLines (fd : fieldDescriptor) (opts : options) : result (string * bool) :=
  let goName := convertToExportedIdentifier U (Name fd) (forceCases opts) in
  match getType U fd with
  | Err e => Err e
  | Ok goType =>
    let commentLine :=
      if (Comment fd =? "")%string then ""
      else tab +:+ "// " +:+ replaceNewlines (Comment fd) +:+ nl in
    Ok (commentLine +:+ tab +:+ goName +:+ " " +:+ goType +:+ " "
          +:+ getTag fd opts +:+ nl,
        oneOf (Type_ fd) ["datetime"; "date"; "time"; "timestamp"])
  end.

Fixpoint modelLines (fds : list fieldDescriptor) (opts : options)
         (modeLinesBuf : string) (isNeedImportTime : bool) : result (string * bool) :=
  match fds with
  | [] => Ok (modeLinesBuf, isNeedImportTime)
  | fd :: rest =>
    match fieldLines fd opts with
    | Err e => Err e
    | Ok (lines, needTime) =>
      modelLines rest opts (modeLinesBuf +:+ lines) (isNeedImportTime || needTime)
    end
  end.

(** The text [generateTable] hands to [writeToFile]. *)
Definition renderTable (dbName tableName : string) (opts : options)
           (modeLines : string) (isNeedImportTime : bool) : string :=
  let className := convertToExportedIdentifier U tableName (forceCases opts) in
  newBuffWithBaseHeader dbName
  +:+ (if isNeedImportTime then "import " +:+ dquote +:+ "time" +:+ dquote +:+ nl +:+ nl else "")
  +:+ "type " +:+ className +:+ " struct {" +:+ nl
  +:+ modeLines
  +:+ "}" +:+ nl +:+ nl
  +:+ "func (m " +:+ className +:+ ") TableName() string {" +:+ nl
  +:+ tab +:+ "return " +:+ dquote +:+ tableName +:+ dquote +:+ nl
  +:+ "}" +:+ nl +:+ nl.

Definition outputFileOf (tableName : string) : string :=
  Flags.outputPath flags +:+ "/" +:+ tableName +:+ ".go".

Definition generateTable (sf : schemaFetcher) (dbName tableName : string)
           (opts : options) : M (option error) :=
  match GetFieldDescriptors sf tableName with
  | Err e => ret (Some e)
  | Ok fieldDescriptors =>
    match modelLines fieldDescriptors opts "" false with
    | Err e => ret (Some e)
    | Ok (modeLines, isNeedImportTime) =>
      writeToFile (renderTable dbName tableName opts modeLines isNeedImportTime)
                  (outputFileOf tableName) true
    end
  end.

(** The loop at the end of [Generate]. *)
Fixpoint generateTables (sf : schemaFetcher) (dbName : string)
         (names : list string) (opts : options) : M (option error) :=
  match names with
  | [] => ret None
  | tableName :: rest =>
    printStderr ("Generating " +:+ tableName +:+ nl);;
    do err <- generateTable sf dbName tableName opts;
    match err with
    | Some e => ret (Some e)
    | None => generateTables sf dbName rest opts
    end
  end.

(** What a call of [Generate] ends in: os.Exit or a returned error. *)
Inductive outcome :=
| Exit (code : Z)
| Return (err : option error).

(** database/sql and the three schema fetchers are not part of these
    sources: [DB] is a connection, [sqlOpen] is sql.Open, and
    [fetcherOf driverName db] is the fetcher the factory of that driver
    builds. [cmd] is os.Args[0]. *)
Variable DB : Type.
Variable sqlOpen : string -> string -> result DB.
Variable fetcherOf : string -> DB -> schemaFetcher.
Variable cmd : string.

Definition getSchemaFetcherFactory (driverName : string) : option (DB -> schemaFetcher) :=
  if oneOf driverName ["mysql"; "sqlite3"; "postgres"]
  then Some (fetcherOf driverName) else None.

Definition usage (exampleDataSourceName : string) : string :=
  "Usage:" +:+ nl
  +:+ tab +:+ cmd +:+ " -o outpath -dbc databaseConnection [-t table1,table2,...] [-tag gorm,json,pg] [-forcecases ID,IDs,HTML]" +:+ nl
  +:+ "Example:" +:+ nl
  +:+ tab +:+ cmd +:+ " " +:+ dquote +:+ "-o ./ -d " +:+ exampleDataSourceName +:+ dquote +:+ nl.

Definition printUsageAndExit (exampleDataSourceName : string) : M outcome :=
  printStderr (usage exampleDataSourceName);; ret (Exit 1).

Definition optionsOfFlags : options :=
  {| dataSourceName := Flags.databaseConnection flags;
     tableNames := if (Flags.tables flags =? "")%string then []
                   else strings_Split (Flags.tables flags);
     tag := Flags.tag flags;
     forceCases := if (Flags.forcecases flags =? "")%string then []
                   else strings_Split (Flags.forcecases flags) |}.

Definition withTableNames (opts : options) (names : list string) : options :=
  {| dataSourceName := dataSourceName opts; tableNames := names;
     tag := tag opts; forceCases := forceCases opts |}.

Definition Generate (driverName exampleDataSourceName : string) : M outcome :=
  if (Flags.outputPath flags =? "")%string then printUsageAndExit exampleDataSourceName
  else if (Flags.databaseConnection flags =? "")%string
  then printUsageAndExit exampleDataSourceName
  else
    let opts := optionsOfFlags in
    match sqlOpen driverName (dataSourceName opts) with
    | Err e => ret (Return (Some e))
    | Ok db =>
      match getSchemaFetcherFactory driverName with
      | None =>
        printStderr ("unsupported driver " +:+ driverName +:+ nl);; ret (Exit 2)
      | Some schemaFetcherFactory =>
        let sf := schemaFetcherFactory db in
        match GetDatabaseName sf with
        | Err e => ret (Return (Some e))
        | Ok dbName =>
          if (dbName =? "")%string then ret (Return (Some "no database selected"))
          else
            let resolved :=
              if (length (tableNames opts) =? 0)%nat then GetTableNames sf
              else Ok (tableNames opts) in
            match resolved with
            | Err e => ret (Return (Some e))
            | Ok names =>
              do err <- generateTables sf dbName names (withTableNames opts names);
              ret (Return err)
            end
        end
      end
    end.

End Render.

(** * Definitions for the statements *)

(** The lookup table as the specification documents it: declared type and
    host type. [bit] is apart, its host type depends on the size. *)
Definition documentedTypes : list (string * string) :=
  [ ("tinyint", "int8"); ("smallint", "int16");
    ("int", "int32"); ("mediumint", "int32");
    ("bigint", "int64"); ("integer", "int64");
    ("float", "float64"); ("double", "float64");
    ("decimal", "float64"); ("real", "float64");
    ("char", "string"); ("varchar", "string"); ("text", "string");
    ("tinytext", "string"); ("mediumtext", "string"); ("longtext", "string");
    ("enum", "string"); ("json", "string"); ("numeric", "string");
    ("character varying", "string");
    ("datetime", "time.Time"); ("date", "time.Time");
    ("time", "time.Time"); ("timestamp", "time.Time");
    ("binary", "string"); ("varbinary", "string"); ("blob", "string");
    ("tinyblob", "string"); ("mediumblob", "string"); ("longblob", "string");
    ("geometry", "sqlingo.WellKnownBinary"); ("point", "sqlingo.WellKnownBinary");
    ("linestring", "sqlingo.WellKnownBinary"); ("polygon", "sqlingo.WellKnownBinary");
    ("multipoint", "sqlingo.WellKnownBinary");
    ("multilinestring", "sqlingo.WellKnownBinary");
    ("multipolygon", "sqlingo.WellKnownBinary");
    ("geometrycollection", "sqlingo.WellKnownBinary") ].

Fixpoint assoc (k : string) (l : list (string * string)) : option string :=
  match l with
  | [] => None
  | (k', v) :: rest => if (k =? k')%string then Some v else assoc k rest
  end.

(** The documented host type of a lower-cased declared type. *)
Definition documentedType (t : string) (size : Z) : option string :=
  if (t =? "bit")%string then Some (if size =? 1 then "bool" else "string")
  else assoc t documentedTypes.

(** The integer host types. *)
Definition isIntegerType (goType : string) : bool :=
  oneOf goType ["int8"; "int16"; "int32"; "int64"].

(** The documented result: the host type, unsigned when the flag is set
    and the type is an integer, behind a pointer when null is allowed. *)
Definition documentedResult (fd : fieldDescriptor) (base : string) : string :=
  (if AllowNull fd then "*" else "")
  +:+ (if Unsigned fd && isIntegerType base then "u" else "")
  +:+ base.

(** A field whose lower-cased declared type is not in the lookup table. *)
Definition unsupportedField (U : UnicodeTables) (fd : fieldDescriptor) : Prop :=
  documentedType (strings_ToLower U (Type_ fd)) (Size fd) = None.

(** The error of [getType] for such a field. *)
Definition unknownFieldType (fd : fieldDescriptor) : error :=
  "unknown field type " +:+ Type_ fd.

(** A string of ASCII letters and digits. *)
Definition alnumString (s : string) : bool := forallb isAsciiAlnum (bytes s).

(** An identifier safe in ASCII: letters and digits only, the first an
    upper-case letter. *)
Definition asciiExported (s : string) : bool :=
  match bytes s with
  | [] => false
  | b :: _ => isAsciiUpper b
  end && alnumString s.

(** The prefix is there exactly when the joined words are empty or do
    not start with an upper-case letter. *)
Definition needsPrefix (U : UnicodeTables) (joined : string) : bool :=
  (joined =? "")%string || negb (IsUpper U (firstRune joined)).

(** The import line of the time package. *)
Definition timeImport : string := "import " +:+ dquote +:+ "time" +:+ dquote +:+ nl.

(** The tag of the style [gorm] for a column. *)
Definition gormTag (column : string) : string :=
  "`gorm:" +:+ dquote +:+ "column:" +:+ column +:+ dquote +:+ "`".

(** The accessor at the end of a generated file. *)
Definition tableNameAccessor (className tableName : string) : string :=
  "func (m " +:+ className +:+ ") TableName() string {" +:+ nl
  +:+ tab +:+ "return " +:+ dquote +:+ tableName +:+ dquote +:+ nl
  +:+ "}" +:+ nl +:+ nl.

(** A generated file up to the first field of the struct. *)
Definition structHead (dbName className : string) (isNeedImportTime : bool) : string :=
  newBuffWithBaseHeader dbName
  +:+ (if isNeedImportTime then timeImport +:+ nl else "")
  +:+ "type " +:+ className +:+ " struct {" +:+ nl.

(** The options with another tag style. *)
Definition withTag (opts : options) (style : string) : options :=
  {| dataSourceName := dataSourceName opts; tableNames := tableNames opts;
     tag := style; forceCases := forceCases opts |}.

(** The content of the regular file at [path], if there is one. *)
Definition writtenFile (w : World) (path : string) : option string :=
  match fs w !! path with
  | Some (RegularFile content) => Some content
  | _ => None
  end.

Section RenderedText.
Variable U : UnicodeTables.

(** The error of the first field whose type is not mapped. *)
Fixpoint typeError (fds : list fieldDescriptor) : option error :=
  match fds with
  | [] => None
  | fd :: rest =>
    match getType U fd with
    | Err e => Some e
    | Ok _ => typeError rest
    end
  end.

(** The line of the struct for one field, after its comment line. *)
Definition fieldLine (fd : fieldDescriptor) (opts : options) (goType : string) : string :=
  tab +:+ convertToExportedIdentifier U (Name fd) (forceCases opts)
  +:+ " " +:+ goType +:+ " " +:+ getTag fd opts +:+ nl.

Definition commentLine (fd : fieldDescriptor) : string :=
  if (Comment fd =? "")%string then ""
  else tab +:+ "// " +:+ replaceNewlines (Comment fd) +:+ nl.

Definition fieldText (fd : fieldDescriptor) (opts : options) : string :=
  match getType U fd with
  | Ok goType => commentLine fd +:+ fieldLine fd opts goType
  | Err _ => ""
  end.

Fixpoint linesText (fds : list fieldDescriptor) (opts : options) : string :=
  match fds with
  | [] => ""
  | fd :: rest => fieldText fd opts +:+ linesText rest opts
  end.

(** Some field is declared, letter for letter, with one of the four
    names the import switch of [generateTable] lists. *)
Definition needsTime (fds : list fieldDescriptor) : bool :=
  existsb (fun fd => oneOf (Type_ fd) ["datetime"; "date"; "time"; "timestamp"]) fds.

Definition tableText (dbName tableName : string) (opts : options)
           (fds : list fieldDescriptor) : string :=
  renderTable U dbName tableName opts (linesText fds opts) (needsTime fds).

End RenderedText.

(** The answers that let [writeToFile] overwrite. *)
Definition accepts (answer : string) : bool :=
  (answer =? "Y")%string || (answer =? "y")%string.

(** The world with the regular file [text] at [path]. *)
Definition overwritten (w : World) (path text : string) : World :=
  {| fs := <[path := RegularFile text]> (fs w); stdin := stdin w;
     stdout := stdout w; stderr := stderr w |}.

(** The world once the question has been printed and the answer read. *)
Definition asked (outputFile : string) (w : World) : World :=
  {| fs := fs w; stdin := tl (stdin w);
     stdout := stdout w +:+ overwritePrompt outputFile; stderr := stderr w |}.

(** The world after a declined overwrite. *)
Definition skipped (outputFile : string) (w : World) : World :=
  {| fs := fs w; stdin := tl (stdin w);
     stdout := (stdout w +:+ overwritePrompt outputFile) +:+ "skip" +:+ outputFile +:+ nl;
     stderr := stderr w |}.

(** The world when the render of [tableName] starts. *)
Definition announced (tableName : string) (w : World) : World :=
  snd (printStderr ("Generating " +:+ tableName +:+ nl) w).

(** Case analysis on the conditions of a goal, arithmetic closing the
    impossible branches. *)
Ltac split_ifs :=
  repeat match goal with
         | |- context [if ?c then _ else _] =>
           let E := fresh "E" in destruct c eqn:E; try lia
         end.

(** ** Sample inputs *)

Definition sampleField : fieldDescriptor :=
  {| Name := "user_id"; Type_ := "BIGINT"; Size := 20;
     Unsigned := true; AllowNull := true; Comment := "" |}.

Definition field (name type : string) (null : bool) : fieldDescriptor :=
  {| Name := name; Type_ := type; Size := 0; Unsigned := false;
     AllowNull := null; Comment := "" |}.

Definition emptyWorld : World :=
  {| fs := ∅; stdin := []; stdout := ""; stderr := "" |}.

(** A world where the file of [users] exists and the user will answer
    [n]. *)
Definition staleWorld : World :=
  {| fs := {[ "out/users.go" := RegularFile "package old" ]};
     stdin := ["n"]; stdout := ""; stderr := "" |}.

Definition sampleFlags : Flags.t :=
  {| Flags.outputPath := "out"; Flags.databaseConnection := "dsn";
     Flags.tables := "users,audit,events"; Flags.tag := "gorm";
     Flags.forcecases := "ID" |}.

Definition sampleOptions : options :=
  {| dataSourceName := "dsn"; tableNames := ["users"; "audit"; "events"];
     tag := "gorm"; forceCases := ["ID"] |}.

(** A schema of three tables: [users] as in the specification's example,
    [events] with a column declared in upper case, [audit] with a column
    of a type the mapper does not know. *)
Definition sampleFetcher : schemaFetcher :=
  {| GetDatabaseName := Ok "shop";
     GetTableNames := Ok ["users"; "audit"; "events"];
     GetFieldDescriptors := fun tableName =>
       if (tableName =? "users")%string then
         Ok [field "id" "int" false; field "name" "varchar" true;
             field "created_at" "datetime" false]
       else if (tableName =? "events")%string then
         Ok [field "created_at" "DATETIME" false]
       else if (tableName =? "audit")%string then
         Ok [field "id" "int" false; field "payload" "uuid" false]
       else Err "no such table";
     QuoteIdentifier := fun identifier => "`" +:+ identifier +:+ "`" |}.

Definition sampleOpen (driverName dataSource : string) : result unit := Ok tt.

Definition sampleFetcherOf (driverName : string) (db : unit) : schemaFetcher :=
  sampleFetcher.

(** The world after [generateTable] has run for [users] on the empty one. *)
Definition usersWorld : World :=
  snd (generateTable latin1Tables sampleFlags sampleFetcher "shop" "users"
                     sampleOptions emptyWorld).

(** The world after the table [users] of the sample schema has been
    generated by the loop. *)
Definition usersDone : World :=
  snd (generateTables latin1Tables sampleFlags sampleFetcher "shop" ["users"]
                      (optionsOfFlags sampleFlags) emptyWorld).

(** ** Identifiers beyond ASCII *)

(** A Unicode scalar value: in range and no surrogate. *)
Definition validRune (r : rune) : bool :=
  (0 <=? r) && (r <=? MaxRune) && negb ((0xD800 <=? r) && (r <=? 0xDFFF)).

(** The UTF-8 text of a list of runes. *)
Definition encodeRunes (rs : list rune) : string :=
  String.concat "" (map encodeRune rs).

(** What Go's identifiers are made of: unicode.IsLetter or unicode.IsDigit. *)
Definition letterOrDigit (U : UnicodeTables) (r : rune) : bool :=
  IsLetter U r || IsDigit U r.

(** An identifier-safe text: valid UTF-8 (it is the encoding of its own
    runes) in which every rune is a letter or a digit. *)
Definition lettersAndDigits (U : UnicodeTables) (s : string) : bool :=
  forallb (letterOrDigit U) (runes s) && (encodeRunes (runes s) =? s)%string.

(** The same, as the existence of the runes. *)
Definition encodesLetters (U : UnicodeTables) (s : string) : Prop :=
  exists rs, s = encodeRunes rs /\ forallb (letterOrDigit U) rs = true.

(** Two facts of the Unicode tables the normalizer relies on: the upper
    case of a letter or digit is a letter or digit, and letters and
    digits are Unicode scalar values. *)
Definition consistentTables (U : UnicodeTables) : Prop :=
  (forall r, letterOrDigit U r = true -> letterOrDigit U (ToUpper U r) = true)
  /\ (forall r, letterOrDigit U r = true -> validRune r = true).

Definition oneOfRunes (r : rune) (rs : list rune) : bool := existsb (Z.eqb r) rs.

(** A fragment of the Unicode tables above Latin-1: the letters U+0178
    (the upper case of U+00FF), U+0399 and U+03B9 (Greek iota), U+039C and
    U+03BC (Greek mu, the upper case of U+00B5), and the combining mark
    U+0345, no letter, which unicode.SimpleFold puts in the orbit of iota
    and whose upper case is U+0399. The fold pairs of Latin-1 are there
    as well. *)
Definition greekTables : UnicodeTables :=
  {| tblIsLetter := fun r => oneOfRunes r [0x178; 0x399; 0x39C; 0x3B9; 0x3BC];
     tblIsDigit := fun _ => false;
     tblIsUpper := fun r => oneOfRunes r [0x178; 0x399; 0x39C];
     tblToUpper := fun r => if oneOfRunes r [0x3B9; 0x345] then 0x399
                            else if r =? 0x3BC then 0x39C else r;
     tblToLower := fun r => if r =? 0x178 then 0xFF
                            else if r =? 0x399 then 0x3B9
                            else if r =? 0x39C then 0x3BC else r;
     tblFold := fun lo hi =>
       (latin1Upper lo && (hi =? lo + 32))
       || ((lo =? 0xFF) && (hi =? 0x178))
       || ((lo =? 0xB5) && oneOfRunes hi [0x39C; 0x3BC])
       || ((lo =? 0x39C) && (hi =? 0x3BC))
       || ((lo =? 0x345) && oneOfRunes hi [0x399; 0x3B9])
       || ((lo =? 0x399) && (hi =? 0x3B9)) |}.

(** Arithmetic with division and remainder by constants. *)
Ltac arith := cbn; Z.div_mod_to_equations; lia.

(** Case analysis on the conditions of a goal, [arith] closing the
    impossible branches. *)
Ltac decide_ifs :=
  repeat match goal with
         | |- context [if ?c then _ else _] =>
           let E := fresh "E" in
           destruct c eqn:E;
           try (exfalso; arith);
           try (match type of E with (_ <=? _)%nat = _ => cbn in E; discriminate E end)
         end.

(** ** The three programs (sqlm-gen-mysql, sqlm-gen-postgres, sqlm-gen-sqlite3) *)

(** How a program ends: os.Exit inside [Generate], the panic of [main] on
    an error, or the return of [main]. *)
Inductive programEnd :=
| Exited (code : Z)
| Panicked (e : error)
| Finished.

(** [err := generator.Generate(...); if err != nil { panic(err) }] *)
Definition panicOnError (out : outcome) : programEnd :=
  match out with
  | Exit code => Exited code
  | Return (Some e) => Panicked e
  | Return None => Finished
  end.

Module sqlm_gen_mysql.
Definition main (U : UnicodeTables) (flags : Flags.t) (DB : Type)
           (sqlOpen : string -> string -> result DB)
           (fetcherOf : string -> DB -> schemaFetcher) (cmd : string) : M programEnd :=
  do out <- Generate U flags DB sqlOpen fetcherOf cmd
                     "mysql" "username:password@tcp(hostname:3306)/database";
  ret (panicOnError out).
End sqlm_gen_mysql.

Module sqlm_gen_postgres.
Definition main (U : UnicodeTables) (flags : Flags.t) (DB : Type)
           (sqlOpen : string -> string -> result DB)
           (fetcherOf : string -> DB -> schemaFetcher) (cmd : string) : M programEnd :=
  do out <- Generate U flags DB sqlOpen fetcherOf cmd
                     "postgres"
                     "host=localhost port=5432 user=user password=pass dbname=db sslmode=disable";
  ret (panicOnError out).
End sqlm_gen_postgres.

Module sqlm_gen_sqlite3.
Definition main (U : UnicodeTables) (flags : Flags.t) (DB : Type)
           (sqlOpen : string -> string -> result DB)
           (fetcherOf : string -> DB -> schemaFetcher) (cmd : string) : M programEnd :=
  do out <- Generate U flags DB sqlOpen fetcherOf cmd "mysql" "./testdb.sqlite3";
  ret (panicOnError out).
End sqlm_gen_sqlite3.

(** ** Definitions for the further properties *)

(** The lines [Generate] prints on stderr for the tables of [names]. *)
Fixpoint announcements (names : list string) : string :=
  match names with
  | [] => ""
  | t :: rest => "Generating " +:+ t +:+ nl +:+ announcements rest
  end.

(** The world with [text] added to stderr. *)
Definition withStderr (w : World) (text : string) : World :=
  {| fs := fs w; stdin := stdin w; stdout := stdout w; stderr := stderr w +:+ text |}.

(** The table names [Generate] works on: the ones of the flag [-t], or
    else the ones the fetcher lists. *)
Definition resolvedNames (flags : Flags.t) (sf : schemaFetcher) : result (list string) :=
  if (length (tableNames (optionsOfFlags flags)) =? 0)%nat then GetTableNames sf
  else Ok (tableNames (optionsOfFlags flags)).

(** The lower-case form of an ASCII byte. *)
Definition asciiLower (b : Z) : Z := if isAsciiUpper b then b + 32 else b.

(** No rune of the name is a letter or a digit. *)
Definition noLetterOrDigit (U : UnicodeTables) (s : string) : bool :=
  forallb (fun r => negb (IsLetter U r || IsDigit U r)) (runes s).

(** The declared type is already in lower case. *)
Definition lowerCaseType (U : UnicodeTables) (fd : fieldDescriptor) : Prop :=
  strings_ToLower U (Type_ fd) = Type_ fd.

(** A connection opener that knows the drivers of [registered] only, as
    sql.Open does: any other name gets its unknown-driver error. [unit]
    stands for the connection. *)
Definition openRegistered (registered : list string) (driverName dataSource : string)
  : result unit :=
  if oneOf driverName registered then Ok tt
  else Err ("sql: unknown driver " +:+ dquote +:+ driverName +:+ dquote
            +:+ " (forgotten import?)").

(** ** Definitions and sample inputs for the further properties, continued *)

(** Flags without the output path. *)
Definition noOutputFlags : Flags.t :=
  {| Flags.outputPath := ""; Flags.databaseConnection := "dsn";
     Flags.tables := ""; Flags.tag := ""; Flags.forcecases := "" |}.

(** A connection on which no database is selected. *)
Definition noDatabaseFetcherOf (driverName : string) (db : unit) : schemaFetcher :=
  {| GetDatabaseName := Ok ""; GetTableNames := Ok [];
     GetFieldDescriptors := fun _ => Err "no such table";
     QuoteIdentifier := fun identifier => identifier |}.

(** Flags that ask for the two tables of the sample schema that render. *)
Definition twoTableFlags : Flags.t :=
  {| Flags.outputPath := "out"; Flags.databaseConnection := "dsn";
     Flags.tables := "users,events"; Flags.tag := ""; Flags.forcecases := "" |}.

(** The world after [Generate] has run with them on the empty one. *)
Definition twoTablesDone : World :=
  snd (Generate latin1Tables twoTableFlags unit sampleOpen sampleFetcherOf "sqlm-gen-mysql"
                "mysql" "user:password@/shop" emptyWorld).

(** A world where the output file of [users] is a directory. *)
Definition blockedWorld : World :=
  {| fs := {[ "out/users.go" := Present "open out/users.go: is a directory" ]};
     stdin := []; stdout := ""; stderr := "" |}.

(** The file can be opened for writing: it is a regular file or absent. *)
Definition canOpen (w : World) (path : string) : bool :=
  match fs w !! path with
  | Some (RegularFile _) | None => true
  | _ => false
  end.

(** A fetcher that reports no column for any table. *)
Definition emptyTableFetcher : schemaFetcher :=
  {| GetDatabaseName := Ok "shop"; GetTableNames := Ok ["ghost"];
     GetFieldDescriptors := fun _ => Ok [];
     QuoteIdentifier := fun identifier => identifier |}.

(** The bytes of the words of a list, one after the other. *)
Definition flatBytes (words : list string) : list Z := List.concat (map bytes words).

(** [Generate] got through its checks for [driverName], and every table
    of the list had its columns fetched and all their types mapped. *)
Definition allRendered (U : UnicodeTables) (flags : Flags.t) (DB : Type)
           (sqlOpen : string -> string -> result DB)
           (fetcherOf : string -> DB -> schemaFetcher)
           (driverName : string) : Prop :=
  Flags.outputPath flags <> "" /\ Flags.databaseConnection flags <> ""
  /\ exists db dbName names,
      sqlOpen driverName (Flags.databaseConnection flags) = Ok db
      /\ GetDatabaseName (fetcherOf driverName db) = Ok dbName
      /\ dbName <> ""
      /\ resolvedNames flags (fetcherOf driverName db) = Ok names
      /\ forall t, In t names ->
           exists fds,
             GetFieldDescriptors (fetcherOf driverName db) t = Ok fds
             /\ typeError U fds = None.

(** A world where the output directory is missing. *)
Definition noDirectoryWorld : World :=
  {| fs := {[ "out/users.go" := Unreachable None "open out/users.go: no such file or directory" ]};
     stdin := ["y"]; stdout := ""; stderr := "" |}.

(** * Properties *)

(** ** The type mapper *)

Lemma assoc_In k v l : assoc k l = Some v -> In (k, v) l.
Proof.
  induction l as [|[k' v'] l IH]; simpl; [discriminate|].
  destruct (String.eqb_spec k k') as [->|_].
  - intros [= ->]. now left.
  - intros H. right. auto.
Qed.

(** C1: a declared type that lower-cases to an entry of the lookup table
    is mapped to the documented host type, with the [u] prefix exactly for
    an unsigned integer type and the [*] prefix exactly when null is
    allowed. *)
Theorem getType_documented (U : UnicodeTables) (fd : fieldDescriptor) (base : string) :
  documentedType (strings_ToLower U (Type_ fd)) (Size fd) = Some base ->
  getType U fd = Ok (documentedResult fd base).
Proof.
  unfold documentedType, getType, documentedResult.
  destruct (String.eqb_spec (strings_ToLower U (Type_ fd)) "bit") as [->|_].
  - intros [= <-]. cbn. destruct (Size fd =? 1), (Unsigned fd), (AllowNull fd); reflexivity.
  - intros H. apply assoc_In in H. cbn in H.
    repeat (destruct H as [H|H];
            [ injection H as <- <-; destruct (Unsigned fd), (AllowNull fd); reflexivity | ]).
    destruct H.
Qed.

Lemma getType_documented_witness :
  documentedType (strings_ToLower latin1Tables (Type_ sampleField)) (Size sampleField)
    = Some "int64"
  /\ getType latin1Tables sampleField = Ok "*uint64".
Proof.
  split; [reflexivity|].
  apply (getType_documented latin1Tables sampleField "int64"). reflexivity.
Defined.

Lemma getType_unknown U fd :
  unsupportedField U fd -> getType U fd = Err (unknownFieldType fd).
Proof.
  unfold unsupportedField, documentedType, getType, unknownFieldType.
  generalize (strings_ToLower U (Type_ fd)) as t. intros t H.
  cbn [assoc documentedTypes] in H.
  repeat match type of H with
         | context [String.eqb ?a ?b] =>
           destruct (String.eqb a b) eqn:?; [discriminate H|]
         end.
  cbn [oneOf existsb].
  repeat match goal with
         | E : String.eqb _ _ = false |- _ => rewrite E; clear E
         end.
  reflexivity.
Qed.

Lemma getType_supported U fd base :
  documentedType (strings_ToLower U (Type_ fd)) (Size fd) = Some base ->
  exists goType, getType U fd = Ok goType.
Proof.
  unfold documentedType, getType.
  destruct (String.eqb_spec (strings_ToLower U (Type_ fd)) "bit") as [->|_].
  - intros _. cbn. destruct (Size fd =? 1); eexists; reflexivity.
  - intros H. apply assoc_In in H. cbn in H.
    repeat (destruct H as [H|H]; [injection H as <- <-; eexists; reflexivity|]).
    destruct H.
Qed.

Section RenderFacts.
Variable U : UnicodeTables.
Variable flags : Flags.t.

Lemma modelLines_unsupported opts fds :
  forall buf need fd,
    In fd fds -> unsupportedField U fd ->
    exists fd', In fd' fds /\ unsupportedField U fd'
                /\ modelLines U fds opts buf need = Err (unknownFieldType fd').
Proof.
  induction fds as [|fd0 fds IH]; intros buf need fd Hin Hun; [destruct Hin|].
  destruct (documentedType (strings_ToLower U (Type_ fd0)) (Size fd0)) as [base|] eqn:E.
  - destruct Hin as [->|Hin]; [unfold unsupportedField in Hun; congruence|].
    destruct (getType_supported U fd0 base E) as [goType Hg].
    cbn [modelLines]. unfold fieldLines at 1. rewrite Hg.
    destruct (IH (buf +:+
                    ((if (Comment fd0 =? "")%string then ""
                      else tab +:+ "// " +:+ replaceNewlines (Comment fd0) +:+ nl)
                     +:+ tab +:+ convertToExportedIdentifier U (Name fd0) (forceCases opts)
                     +:+ " " +:+ goType +:+ " " +:+ getTag fd0 opts +:+ nl))
                 (need || oneOf (Type_ fd0) ["datetime"; "date"; "time"; "timestamp"])
                 fd Hin Hun) as (fd' & Hin' & Hun' & Hm).
    exists fd'. split; [now right|]. split; [assumption|]. exact Hm.
  - exists fd0. split; [now left|]. split; [exact E|].
    cbn [modelLines]. unfold fieldLines. now rewrite (getType_unknown U fd0 E).
Qed.

End RenderFacts.

(** C6: a declared type outside the lookup table makes [getType] fail with
    an error that carries the type as declared, and a table with such a
    field is not generated: [generateTable] returns that error for the
    first such field and leaves files and streams as they were. *)
Theorem unknown_type_aborts_table (U : UnicodeTables) (flags : Flags.t)
        (sf : schemaFetcher) (dbName tableName : string) (opts : options)
        (fds : list fieldDescriptor) (fd : fieldDescriptor) (w : World) :
  unsupportedField U fd ->
  getType U fd = Err ("unknown field type " +:+ Type_ fd)
  /\ (GetFieldDescriptors sf tableName = Ok fds -> In fd fds ->
      exists fd', In fd' fds /\ unsupportedField U fd'
        /\ generateTable U flags sf dbName tableName opts w
           = (Some ("unknown field type " +:+ Type_ fd'), w)).
Proof.
  intros Hun. split; [exact (getType_unknown U fd Hun)|].
  intros Hfds Hin.
  destruct (modelLines_unsupported U opts fds "" false fd Hin Hun) as (fd' & Hin' & Hun' & Hm).
  exists fd'. split; [assumption|]. split; [assumption|].
  unfold generateTable. rewrite Hfds, Hm. reflexivity.
Qed.

Lemma unknown_type_aborts_table_witness :
  unsupportedField latin1Tables (field "payload" "uuid" false)
  /\ getType latin1Tables (field "payload" "uuid" false) = Err "unknown field type uuid"
  /\ generateTable latin1Tables sampleFlags sampleFetcher "shop" "audit" sampleOptions
                   emptyWorld
     = (Some "unknown field type uuid", emptyWorld).
Proof.
  assert (Hun : unsupportedField latin1Tables (field "payload" "uuid" false))
    by reflexivity.
  split; [exact Hun|].
  destruct (unknown_type_aborts_table latin1Tables sampleFlags sampleFetcher "shop" "audit"
              sampleOptions
              [field "id" "int" false; field "payload" "uuid" false]
              (field "payload" "uuid" false) emptyWorld Hun) as [Hg _].
  split; [exact Hg|]. vm_compute. reflexivity.
Defined.

(** ** Bytes of strings *)

Lemma append_cons c a b : String c a +:+ b = String c (a +:+ b).
Proof. reflexivity. Qed.

Lemma append_nil_l a : "" +:+ a = a.
Proof. reflexivity. Qed.

Lemma append_nil_r a : a +:+ "" = a.
Proof. induction a as [|c a IH]; [reflexivity|]. now rewrite append_cons, IH. Qed.

Lemma append_assoc a b c : (a +:+ b) +:+ c = a +:+ (b +:+ c).
Proof.
  induction a as [|x a IH]; [reflexivity|].
  now rewrite !append_cons, IH.
Qed.

Lemma bytes_app a b : bytes (a +:+ b) = (bytes a ++ bytes b)%list.
Proof.
  induction a as [|c a IH]; [reflexivity|].
  rewrite append_cons. cbn [bytes app]. now rewrite IH.
Qed.

Lemma byteval_range c : 0 <= byteval c < 256.
Proof.
  unfold byteval. pose proof (N_ascii_bounded c). lia.
Qed.

Lemma byteval_byte_of z : 0 <= z < 256 -> byteval (byte_of z) = z.
Proof.
  intros Hz. unfold byteval, byte_of.
  rewrite N_ascii_embedding by lia. lia.
Qed.

Lemma bytes_of_bytes l :
  Forall (fun z => 0 <= z < 256) l -> bytes (of_bytes l) = l.
Proof.
  induction 1 as [|z l Hz _ IH]; simpl; [reflexivity|].
  now rewrite byteval_byte_of, IH.
Qed.

Lemma concat_cons x xs : String.concat "" (x :: xs) = x +:+ String.concat "" xs.
Proof.
  destruct xs as [|y ys]; cbn [String.concat]; [|reflexivity].
  now rewrite append_nil_r.
Qed.

Lemma bytes_nil s : bytes s = [] -> s = "".
Proof. destruct s; [reflexivity|discriminate]. Qed.

Lemma isWordChar_ascii r : isWordChar r = true -> 0 <= r < 128.
Proof.
  unfold isWordChar, isAsciiAlnum, isAsciiUpper, isAsciiLower, isAsciiDigit. lia.
Qed.

Lemma encodeRune_ascii r : 0 <= r < 128 -> bytes (encodeRune r) = [r].
Proof.
  intros Hr. unfold encodeRune.
  replace ((0 <=? r) && (r <? 128)) with true by lia.
  apply bytes_of_bytes. constructor; [lia|constructor].
Qed.

(** ** The package identifier *)

Lemma replaceNonIdentifier_bytes name :
  bytes (replaceNonIdentifier name)
  = map (fun r => if isWordChar r then r else 95) (runes name).
Proof.
  unfold replaceNonIdentifier.
  induction (runes name) as [|r rs IH]; [reflexivity|].
  cbn [map]. rewrite concat_cons, bytes_app, IH. f_equal.
  destruct (isWordChar r) eqn:E; [|reflexivity].
  now rewrite encodeRune_ascii by (now apply isWordChar_ascii).
Qed.

Lemma replaceNonIdentifier_word name :
  forallb isWordChar (bytes (replaceNonIdentifier name)) = true.
Proof.
  rewrite replaceNonIdentifier_bytes.
  induction (runes name) as [|r rs IH]; [reflexivity|].
  cbn [map forallb]. rewrite IH, andb_true_r.
  destruct (isWordChar r) eqn:E; [exact E|reflexivity].
Qed.

(** C10: the package identifier of the header is the database name with
    every rune outside [[0-9A-Za-z_]] turned into an underscore, with one
    more underscore in front exactly when that text is empty or starts
    with a digit; it is never empty, holds only word characters and does
    not start with a digit. *)
Theorem ensureIdentifier_valid (name : string) :
  let substituted := replaceNonIdentifier name in
  let result := ensureIdentifier name in
  bytes substituted = map (fun r => if isWordChar r then r else 95) (runes name)
  /\ result = (if (substituted =? "")%string || startsWithDigit substituted
               then "_" +:+ substituted else substituted)
  /\ result <> ""
  /\ forallb isWordChar (bytes result) = true
  /\ startsWithDigit result = false
  /\ newBuffWithBaseHeader name
     = "// This file is generated by sqlmodel (https://github.com/Ficoto/sqlmodel)" +:+ nl
       +:+ "// DO NOT EDIT." +:+ nl
       +:+ "package " +:+ result +:+ " " +:+ nl +:+ nl.
Proof.
  cbv zeta. split; [apply replaceNonIdentifier_bytes|].
  split; [reflexivity|].
  pose proof (replaceNonIdentifier_word name) as Hw.
  unfold newBuffWithBaseHeader, ensureIdentifier.
  destruct (String.eqb_spec (replaceNonIdentifier name) "") as [E|Hne]; cbn [orb].
  - rewrite E. repeat apply conj; try reflexivity. intros [=].
  - destruct (startsWithDigit (replaceNonIdentifier name)) eqn:Hd.
    + rewrite (append_cons "_" "" (replaceNonIdentifier name)), append_nil_l.
      repeat apply conj; try reflexivity; [intros [=]|].
      cbn [bytes forallb]. exact Hw.
    + repeat apply conj; try reflexivity; assumption.
Qed.

(** ** The identifier normalizer: the documented examples *)

(** C7: the three examples of the specification. None of them looks
    beyond ASCII, so they hold whatever the Unicode tables are. *)
Theorem convertToExportedIdentifier_examples (U : UnicodeTables) :
  convertToExportedIdentifier U "user_id" ["ID"] = "UserID"
  /\ convertToExportedIdentifier U "html_content" ["HTML"] = "HTMLContent"
  /\ convertToExportedIdentifier U "2fa_token" [] = "E2faToken".
Proof. repeat split; vm_compute; reflexivity. Qed.

(** ** The import of the time package *)

(** C3, at the failing input: the column [created_at] of [events] is
    declared [DATETIME]. [getType] lower-cases the declared type and maps
    it to [time.Time]; the switch of [generateTable] that decides on the
    import compares the type as declared, so the file uses [time.Time]
    and does not import the package. *)
Theorem uppercase_datetime_without_import (U : UnicodeTables) :
  getType U (field "created_at" "DATETIME" false) = Ok "time.Time"
  /\ exists w text,
      generateTable U sampleFlags sampleFetcher "shop" "events" sampleOptions emptyWorld
        = (None, w)
      /\ writtenFile w "out/events.go" = Some text
      /\ isInfix "time.Time" text = true
      /\ isInfix timeImport text = false.
Proof.
  split; [reflexivity|].
  eexists. eexists. split; [vm_compute; reflexivity|].
  split; [vm_compute; reflexivity|].
  split; vm_compute; reflexivity.
Qed.

(** ** The identifier normalizer *)

Lemma leadByte_ascii b : 0 <= b < 128 -> leadByte b = None.
Proof. intros Hb. unfold leadByte. split_ifs. reflexivity. Qed.

Lemma DecodeRuneInString_ascii c s :
  byteval c < 128 -> DecodeRuneInString (String c s) = (byteval c, 1%nat).
Proof.
  intros Hc. pose proof (byteval_range c) as Hr.
  unfold DecodeRuneInString. cbn [bytes].
  rewrite leadByte_ascii by lia. unfold RuneSelf. split_ifs. reflexivity.
Qed.

Lemma runes_ascii s : isASCII s = true -> runes s = bytes s.
Proof.
  unfold isASCII, runes. induction s as [|c s IH]; [reflexivity|].
  cbn [bytes forallb]. intros [Hc Hs]%andb_true_iff.
  cbn [runesFrom]. rewrite DecodeRuneInString_ascii by (unfold RuneSelf in Hc; lia).
  cbn [Nat.sub]. now rewrite IH.
Qed.

Lemma alnumString_app a b :
  alnumString (a +:+ b) = alnumString a && alnumString b.
Proof. unfold alnumString. now rewrite bytes_app, forallb_app. Qed.

Lemma alnumString_isASCII s : alnumString s = true -> isASCII s = true.
Proof.
  unfold alnumString, isASCII. induction (bytes s) as [|b l IH]; [reflexivity|].
  cbn [forallb]. intros [Hb Hl]%andb_true_iff. rewrite (IH Hl), andb_true_r.
  unfold isAsciiAlnum, isAsciiUpper, isAsciiLower, isAsciiDigit, RuneSelf in *. lia.
Qed.

Lemma isAsciiAlnum_range r : isAsciiAlnum r = true -> 0 <= r < 128.
Proof. unfold isAsciiAlnum, isAsciiUpper, isAsciiLower, isAsciiDigit. lia. Qed.

Lemma lor_ascii a b : 0 <= a < 128 -> 0 <= b < 128 -> Z.lor a b < 128.
Proof.
  intros Ha Hb.
  assert (Hn : 0 <= Z.lor a b) by (apply Z.lor_nonneg; lia).
  destruct (Z.eq_dec (Z.lor a b) 0) as [->|Hz]; [lia|].
  change 128 with (2 ^ 7). apply Z.log2_lt_pow2; [lia|].
  rewrite Z.log2_lor by lia.
  assert (Hl : forall x, 0 <= x < 128 -> Z.log2 x < 7).
  { intros x Hx. destruct (Z.eq_dec x 0) as [->|]; [reflexivity|].
    apply Z.log2_lt_pow2; [lia|]. change (2 ^ 7) with 128. lia. }
  specialize (Hl a Ha) as H1. specialize (Hl b Hb) as H2. lia.
Qed.

Section Normalizer.
Variable U : UnicodeTables.

Lemma inLatin1_ascii r : 0 <= r < 128 -> inLatin1 r = true.
Proof. unfold inLatin1, MaxLatin1. lia. Qed.

Lemma letterOrDigit_ascii r :
  0 <= r < 128 -> IsLetter U r || IsDigit U r = true -> isAsciiAlnum r = true.
Proof.
  intros Hr. unfold IsLetter, IsDigit. rewrite inLatin1_ascii by assumption.
  unfold latin1Letter, isAsciiAlnum, isAsciiUpper, isAsciiLower, isAsciiDigit. lia.
Qed.

Lemma IsUpper_ascii r : 0 <= r < 128 -> IsUpper U r = isAsciiUpper r.
Proof.
  intros Hr. unfold IsUpper. rewrite inLatin1_ascii by assumption.
  unfold latin1Upper, isAsciiUpper.
  destruct ((65 <=? r) && (r <=? 90)) eqn:E; [reflexivity|]. cbn [orb]. lia.
Qed.

Lemma ToUpper_ascii r :
  isAsciiAlnum r = true ->
  isAsciiAlnum (ToUpper U r) = true.
Proof.
  intros Hr. pose proof (isAsciiAlnum_range r Hr) as Hb.
  unfold ToUpper, RuneSelf. replace (r <? 128) with true by lia.
  unfold isAsciiAlnum, isAsciiUpper, isAsciiLower, isAsciiDigit in *.
  destruct ((97 <=? r) && (r <=? 122)) eqn:E; lia.
Qed.

Lemma encodeRune_alnum r : isAsciiAlnum r = true -> alnumString (encodeRune r) = true.
Proof.
  intros Hr. unfold alnumString.
  rewrite encodeRune_ascii by (now apply isAsciiAlnum_range).
  cbn [forallb]. now rewrite Hr.
Qed.

Lemma appendToLast_snoc ws w x : appendToLast (ws ++ [w]) x = (ws ++ [w +:+ x])%list.
Proof. unfold appendToLast. now rewrite rev_unit, rev_involutive. Qed.

Lemma appendToLast_nonempty words x : words <> [] -> appendToLast words x <> [].
Proof.
  destruct words as [|w0 ws0] using rev_ind; [congruence|]. intros _.
  rewrite appendToLast_snoc. intros H. now apply app_eq_nil in H as [_ [=]].
Qed.

(** The index [len(words)-1] is always in range: whenever
    [nextCharShouldBeUpperCase] is false, [words] is not empty. *)
Lemma splitWords_last rs :
  forall st, (snd st = false -> fst st <> []) ->
             snd (fold_left (splitStep U) rs st) = false ->
             fst (fold_left (splitStep U) rs st) <> [].
Proof.
  induction rs as [|r rs IH]; intros [words next] Hst; [exact Hst|].
  cbn [fold_left]. apply IH. unfold splitStep. cbn [fst snd] in *.
  destruct (IsLetter U r || IsDigit U r); [|cbn; discriminate].
  destruct next; cbn [fst snd]; intros _.
  - rewrite appendToLast_snoc. intros H. now apply app_eq_nil in H as [_ [=]].
  - apply appendToLast_nonempty. now apply Hst.
Qed.

Lemma appendToLast_alnum words x :
  forallb alnumString words = true -> alnumString x = true ->
  forallb alnumString (appendToLast words x) = true.
Proof.
  intros Hw Hx. destruct words as [|w0 ws0] using rev_ind; [reflexivity|].
  rewrite appendToLast_snoc. rewrite forallb_app in *. cbn [forallb] in *.
  rewrite alnumString_app. rewrite andb_true_r in *.
  apply andb_true_iff in Hw as [-> ->]. now rewrite Hx.
Qed.

Lemma splitStep_alnum words next r :
  0 <= r < 128 -> forallb alnumString words = true ->
  forallb alnumString (fst (splitStep U (words, next) r)) = true.
Proof.
  intros Hr Hw. unfold splitStep.
  destruct (IsLetter U r || IsDigit U r) eqn:E; [|exact Hw].
  pose proof (letterOrDigit_ascii r Hr E) as Ha.
  destruct next; cbn [fst].
  - apply appendToLast_alnum.
    + rewrite forallb_app, Hw. reflexivity.
    + now apply encodeRune_alnum, ToUpper_ascii.
  - apply appendToLast_alnum; [exact Hw|]. now apply encodeRune_alnum.
Qed.

Lemma fold_splitStep_alnum rs :
  forall words next,
    Forall (fun r => 0 <= r < 128) rs -> forallb alnumString words = true ->
    forallb alnumString (fst (fold_left (splitStep U) rs (words, next))) = true.
Proof.
  induction rs as [|r rs IH]; intros words next Hrs Hw; [exact Hw|].
  apply Forall_cons_iff in Hrs as [Hr Hrs]. cbn [fold_left].
  pose proof (splitStep_alnum words next r Hr Hw) as Hs.
  destruct (splitStep U (words, next) r) as [words' next'].
  now apply IH.
Qed.

Lemma bytes_ascii_range s :
  isASCII s = true -> Forall (fun r => 0 <= r < 128) (bytes s).
Proof.
  unfold isASCII. induction s as [|c s IH]; cbn [bytes forallb]; [constructor|].
  intros [Hc Hs]%andb_true_iff. constructor; [|now apply IH].
  pose proof (byteval_range c). unfold RuneSelf in Hc. lia.
Qed.

Lemma splitWords_alnum s :
  isASCII s = true -> forallb alnumString (splitWords U s) = true.
Proof.
  intros Hs. unfold splitWords. rewrite runes_ascii by assumption.
  apply fold_splitStep_alnum; [now apply bytes_ascii_range|reflexivity].
Qed.

End Normalizer.

Section NormalizerResult.
Variable U : UnicodeTables.

(** On ASCII strings [strings.EqualFold] never leaves its bytewise loop:
    a word of letters and digits only folds to such a word. *)
Lemma EqualFold_ascii_alnum s :
  forall t, isASCII t = true -> alnumString s = true ->
            strings_EqualFold U s t = true -> alnumString t = true.
Proof.
  unfold isASCII, alnumString.
  induction s as [|a s IH]; intros [|b t] Ht Hs Heq; try reflexivity; try discriminate.
  cbn [bytes forallb] in *.
  apply andb_true_iff in Ht as [Hb Ht]. apply andb_true_iff in Hs as [Ha Hs].
  pose proof (isAsciiAlnum_range _ Ha) as Hra.
  assert (Hrb : 0 <= byteval b < 128)
    by (pose proof (byteval_range b); unfold RuneSelf in Hb; lia).
  pose proof (lor_ascii _ _ Hra Hrb) as Hlor.
  cbn [strings_EqualFold] in Heq.
  replace (RuneSelf <=? Z.lor (byteval a) (byteval b)) with false in Heq
    by (unfold RuneSelf; lia).
  destruct (byteval b =? byteval a) eqn:E1.
  - apply Z.eqb_eq in E1. rewrite E1, Ha. now apply IH.
  - destruct (isAsciiUpper (Z.min (byteval a) (byteval b))
              && (Z.max (byteval a) (byteval b) =? Z.min (byteval a) (byteval b) + 32)) eqn:E2;
      [|discriminate].
    rewrite (IH t Ht Hs Heq), andb_true_r.
    unfold isAsciiAlnum, isAsciiUpper, isAsciiLower, isAsciiDigit in *. lia.
Qed.

Lemma forceCase_alnum word forceCases :
  forallb isASCII forceCases = true -> alnumString word = true ->
  alnumString (forceCase U word forceCases) = true.
Proof.
  intros Hf Hw. induction forceCases as [|caseWord rest IH]; [exact Hw|].
  cbn [forallb] in Hf. apply andb_true_iff in Hf as [Hc Hrest].
  cbn [forceCase]. destruct (strings_EqualFold U word caseWord) eqn:E.
  - now apply (EqualFold_ascii_alnum word).
  - now apply IH.
Qed.

Lemma joinWords_alnum words forceCases :
  forallb isASCII forceCases = true -> forallb alnumString words = true ->
  alnumString (joinWords U words forceCases) = true.
Proof.
  intros Hf. unfold joinWords.
  assert (H : forall acc, alnumString acc = true ->
                          forallb alnumString words = true ->
                          alnumString
                            (fold_left (fun result word => result +:+ forceCase U word forceCases)
                                       words acc) = true).
  { induction words as [|w ws IH]; intros acc Hacc Hws; [exact Hacc|].
    cbn [forallb] in Hws. apply andb_true_iff in Hws as [Hw Hws].
    cbn [fold_left]. apply IH; [|exact Hws].
    rewrite alnumString_app, Hacc. now apply forceCase_alnum. }
  now apply H.
Qed.

Lemma firstRune_cons_ascii c s :
  byteval c < 128 -> firstRune (String c s) = byteval c.
Proof.
  intros Hc. unfold firstRune, runes. cbn [runesFrom].
  now rewrite DecodeRuneInString_ascii.
Qed.

Lemma convertToExportedIdentifier_upper s forceCases :
  convertToExportedIdentifier U s forceCases <> ""
  /\ IsUpper U (firstRune (convertToExportedIdentifier U s forceCases)) = true.
Proof.
  unfold convertToExportedIdentifier.
  destruct (String.eqb_spec (joinWords U (splitWords U s) forceCases) "") as [E|E];
    cbn [orb].
  - rewrite E. split; [intros [=]|reflexivity].
  - destruct (IsUpper U (firstRune (joinWords U (splitWords U s) forceCases))) eqn:Hu;
      cbn [negb].
    + split; assumption.
    + rewrite (append_cons "E" ""), append_nil_l. split; [intros [=]|].
      rewrite firstRune_cons_ascii by (vm_compute; reflexivity). reflexivity.
Qed.

Lemma convertToExportedIdentifier_ascii s forceCases :
  isASCII s = true -> forallb isASCII forceCases = true ->
  asciiExported (convertToExportedIdentifier U s forceCases) = true.
Proof.
  intros Hs Hf.
  pose proof (joinWords_alnum (splitWords U s) forceCases Hf (splitWords_alnum U s Hs)) as Hj.
  pose proof (convertToExportedIdentifier_upper s forceCases) as [Hne Hup].
  revert Hne Hup. unfold convertToExportedIdentifier.
  destruct ((joinWords U (splitWords U s) forceCases =? "")%string
            || negb (IsUpper U (firstRune (joinWords U (splitWords U s) forceCases)))).
  - intros _ _. rewrite (append_cons "E" ""), append_nil_l.
    unfold asciiExported, alnumString in *. cbn [bytes forallb]. now rewrite Hj.
  - intros Hne Hup. unfold asciiExported. rewrite Hj, andb_true_r.
    destruct (joinWords U (splitWords U s) forceCases) as [|c rest]; [congruence|].
    cbn [bytes]. unfold alnumString in Hj. cbn [bytes forallb] in Hj.
    apply andb_true_iff in Hj as [Hc _].
    pose proof (isAsciiAlnum_range _ Hc) as Hr.
    rewrite firstRune_cons_ascii in Hup by lia.
    now rewrite IsUpper_ascii in Hup by lia.
Qed.

End NormalizerResult.

(** ** UTF-8: decoding what was encoded *)

Lemma lor_mul_add a b n :
  0 <= n -> 0 <= b < 2 ^ n -> Z.lor (a * 2 ^ n) b = a * 2 ^ n + b.
Proof.
  intros Hn Hb.
  assert (Hland : Z.land (a * 2 ^ n) b = 0).
  { apply Z.bits_inj'. intros i Hi. rewrite Z.land_spec, Z.bits_0.
    destruct (Z.lt_ge_cases i n) as [Hlt|Hge].
    - rewrite Z.mul_pow2_bits_low by lia. reflexivity.
    - destruct (Z.eq_dec b 0) as [->|Hb0]; [now rewrite Z.bits_0, andb_false_r|].
      rewrite (Z.bits_above_log2 b i), andb_false_r; [reflexivity|lia|].
      assert (Z.log2 b < n) by (apply Z.log2_lt_pow2; lia). lia. }
  rewrite <- Z.lxor_lor by exact Hland. symmetry. now apply Z.add_nocarry_lxor.
Qed.

Lemma lor_low h l n :
  0 <= n -> h mod 2 ^ n = 0 -> 0 <= l < 2 ^ n -> Z.lor h l = h + l.
Proof.
  intros Hn Hh Hl. pose proof (Z.div_mod h (2 ^ n)) as Hd.
  assert (Hp : 0 < 2 ^ n) by (apply Z.pow_pos_nonneg; lia).
  rewrite Hh, Z.add_0_r, Z.mul_comm in Hd by lia.
  rewrite Hd at 1 by lia. rewrite lor_mul_add by assumption. lia.
Qed.

Lemma decode_encode2 r rest :
  0x80 <= r < 0x800 ->
  DecodeRuneInString
    (of_bytes [Z.lor 0xC0 (Z.shiftr r 6); Z.lor 0x80 (Z.land r 0x3F)] +:+ rest)
  = (r, 2%nat).
Proof.
  intros Hr.
  rewrite (Z.shiftr_div_pow2 r 6) by lia.
  change 0x3F with (Z.ones 6). rewrite (Z.land_ones r 6) by lia.
  rewrite (lor_low 0xC0 (r / 2 ^ 6) 6) by arith.
  rewrite (lor_low 0x80 (r mod 2 ^ 6) 6) by arith.
  unfold DecodeRuneInString. rewrite bytes_app.
  rewrite bytes_of_bytes by (repeat constructor; arith).
  cbn [app].
  replace (leadByte (192 + r / 2 ^ 6)) with (Some (2%nat, 0x80, 0xBF)).
  2:{ unfold leadByte. replace ((194 <=? 192 + r / 2 ^ 6) && (192 + r / 2 ^ 6 <=? 223)) with true; [reflexivity|]. symmetry. apply andb_true_iff. split; apply Z.leb_le; arith. }
  replace ((128 + r mod 2 ^ 6 <? 128) || (191 <? 128 + r mod 2 ^ 6)) with false.
  2:{ symmetry. apply orb_false_iff. split; apply Z.ltb_ge; arith. }
  cbn [Nat.leb]. f_equal.
  change 0x1F with (Z.ones 5). change 0x3F with (Z.ones 6).
  rewrite !Z.land_ones by lia. rewrite Z.shiftl_mul_pow2 by lia.
  rewrite lor_mul_add by arith. arith.
Qed.

Lemma decode_encode3 r rest :
  0x800 <= r < 0x10000 -> ~ (0xD800 <= r <= 0xDFFF) ->
  DecodeRuneInString
    (of_bytes [Z.lor 0xE0 (Z.shiftr r 12);
               Z.lor 0x80 (Z.land (Z.shiftr r 6) 0x3F);
               Z.lor 0x80 (Z.land r 0x3F)] +:+ rest)
  = (r, 3%nat).
Proof.
  intros Hr Hs.
  rewrite (Z.shiftr_div_pow2 r 12), (Z.shiftr_div_pow2 r 6) by lia.
  change 0x3F with (Z.ones 6). rewrite !Z.land_ones by lia.
  rewrite (lor_low 0xE0 (r / 2 ^ 12) 4) by arith.
  rewrite (lor_low 0x80 ((r / 2 ^ 6) mod 2 ^ 6) 6) by arith.
  rewrite (lor_low 0x80 (r mod 2 ^ 6) 6) by arith.
  unfold DecodeRuneInString. rewrite bytes_app.
  rewrite bytes_of_bytes by (repeat constructor; arith).
  cbn [app]. unfold leadByte, isCont.
  change 0x0F with (Z.ones 4). change 0x3F with (Z.ones 6).
  rewrite !Z.land_ones by lia. rewrite !Z.shiftl_mul_pow2 by lia.
  set (b0 := 224 + r / 2 ^ 12). set (b1 := 128 + (r / 2 ^ 6) mod 2 ^ 6).
  set (b2 := 128 + r mod 2 ^ 6).
  assert (H0 : b0 mod 2 ^ 4 = r / 2 ^ 12) by (subst b0; arith).
  assert (H1 : b1 mod 2 ^ 6 = (r / 2 ^ 6) mod 2 ^ 6) by (subst b1; arith).
  assert (H2 : b2 mod 2 ^ 6 = r mod 2 ^ 6) by (subst b2; arith).
  rewrite H0, H1, H2.
  assert (Hres : Z.lor (Z.lor (r / 2 ^ 12 * 2 ^ 12) ((r / 2 ^ 6) mod 2 ^ 6 * 2 ^ 6))
                       (r mod 2 ^ 6) = r).
  { rewrite (lor_low (r / 2 ^ 12 * 2 ^ 12) _ 12) by arith.
    rewrite (lor_low _ (r mod 2 ^ 6) 6) by arith. arith. }
  rewrite Hres. subst b0 b1 b2.
  decide_ifs; reflexivity.
Qed.

Lemma decode_encode4 r rest :
  0x10000 <= r <= 0x10FFFF ->
  DecodeRuneInString
    (of_bytes [Z.lor 0xF0 (Z.shiftr r 18);
               Z.lor 0x80 (Z.land (Z.shiftr r 12) 0x3F);
               Z.lor 0x80 (Z.land (Z.shiftr r 6) 0x3F);
               Z.lor 0x80 (Z.land r 0x3F)] +:+ rest)
  = (r, 4%nat).
Proof.
  intros Hr.
  rewrite (Z.shiftr_div_pow2 r 18), (Z.shiftr_div_pow2 r 12), (Z.shiftr_div_pow2 r 6) by lia.
  change 0x3F with (Z.ones 6). rewrite !Z.land_ones by lia.
  rewrite (lor_low 0xF0 (r / 2 ^ 18) 3) by arith.
  rewrite (lor_low 0x80 ((r / 2 ^ 12) mod 2 ^ 6) 6) by arith.
  rewrite (lor_low 0x80 ((r / 2 ^ 6) mod 2 ^ 6) 6) by arith.
  rewrite (lor_low 0x80 (r mod 2 ^ 6) 6) by arith.
  unfold DecodeRuneInString. rewrite bytes_app.
  rewrite bytes_of_bytes by (repeat constructor; arith).
  cbn [app]. unfold leadByte, isCont.
  change 0x07 with (Z.ones 3). change 0x3F with (Z.ones 6).
  rewrite !Z.land_ones by lia. rewrite !Z.shiftl_mul_pow2 by lia.
  set (b0 := 240 + r / 2 ^ 18). set (b1 := 128 + (r / 2 ^ 12) mod 2 ^ 6).
  set (b2 := 128 + (r / 2 ^ 6) mod 2 ^ 6). set (b3 := 128 + r mod 2 ^ 6).
  assert (H0 : b0 mod 2 ^ 3 = r / 2 ^ 18) by (subst b0; arith).
  assert (H1 : b1 mod 2 ^ 6 = (r / 2 ^ 12) mod 2 ^ 6) by (subst b1; arith).
  assert (H2 : b2 mod 2 ^ 6 = (r / 2 ^ 6) mod 2 ^ 6) by (subst b2; arith).
  assert (H3 : b3 mod 2 ^ 6 = r mod 2 ^ 6) by (subst b3; arith).
  rewrite H0, H1, H2, H3.
  assert (Hres : Z.lor (Z.lor (Z.lor (r / 2 ^ 18 * 2 ^ 18)
                                     ((r / 2 ^ 12) mod 2 ^ 6 * 2 ^ 12))
                              ((r / 2 ^ 6) mod 2 ^ 6 * 2 ^ 6))
                       (r mod 2 ^ 6) = r).
  { rewrite (lor_low (r / 2 ^ 18 * 2 ^ 18) _ 18) by arith.
    rewrite (lor_low _ ((r / 2 ^ 6) mod 2 ^ 6 * 2 ^ 6) 12) by arith.
    rewrite (lor_low _ (r mod 2 ^ 6) 6) by arith. arith. }
  rewrite Hres. subst b0 b1 b2 b3.
  decide_ifs; reflexivity.
Qed.

Lemma runes_cons c s :
  runes (String c s)
  = fst (DecodeRuneInString (String c s))
    :: runesFrom (snd (DecodeRuneInString (String c s)) - 1) s.
Proof.
  unfold runes. cbn [runesFrom].
  destruct (DecodeRuneInString (String c s)) as [r size]. reflexivity.
Qed.

Lemma runes_encodeRune_app r rest :
  validRune r = true -> runes (encodeRune r +:+ rest) = r :: runes rest.
Proof.
  unfold validRune, MaxRune. intros Hv. unfold encodeRune, MaxRune.
  destruct ((0 <=? r) && (r <? 128)) eqn:E1.
  - cbn [of_bytes]. rewrite append_cons, append_nil_l, runes_cons.
    assert (Hb : byteval (byte_of r) = r) by (apply byteval_byte_of; lia).
    rewrite DecodeRuneInString_ascii by lia. cbn [fst snd Nat.sub]. now rewrite Hb.
  - destruct ((0 <=? r) && (r <? 2048)) eqn:E2.
    + pose proof (decode_encode2 r rest ltac:(lia)) as H. cbn [of_bytes] in *.
      rewrite !append_cons, append_nil_l in *. rewrite runes_cons, H. reflexivity.
    + replace ((r <? 0) || (1114111 <? r) || (55296 <=? r) && (r <=? 57343)) with false by lia.
      destruct (r <? 65536) eqn:E3.
      * pose proof (decode_encode3 r rest ltac:(lia) ltac:(lia)) as H. cbn [of_bytes] in *.
        rewrite !append_cons, append_nil_l in *. rewrite runes_cons, H. reflexivity.
      * pose proof (decode_encode4 r rest ltac:(lia)) as H. cbn [of_bytes] in *.
        rewrite !append_cons, append_nil_l in *. rewrite runes_cons, H. reflexivity.
Qed.

Lemma encodeRunes_cons r rs : encodeRunes (r :: rs) = encodeRune r +:+ encodeRunes rs.
Proof. unfold encodeRunes. cbn [map]. apply concat_cons. Qed.

Lemma encodeRunes_app a b : encodeRunes (a ++ b) = encodeRunes a +:+ encodeRunes b.
Proof.
  induction a as [|r a IH]; [reflexivity|].
  cbn [app]. now rewrite !encodeRunes_cons, IH, append_assoc.
Qed.

Lemma runes_encodeRunes rs :
  forallb validRune rs = true -> runes (encodeRunes rs) = rs.
Proof.
  induction rs as [|r rs IH]; [reflexivity|].
  cbn [forallb]. intros [Hr Hrs]%andb_true_iff.
  now rewrite encodeRunes_cons, runes_encodeRune_app, IH.
Qed.

(** ** Identifiers of letters and digits *)

Section Identifier.
Variable U : UnicodeTables.
Hypothesis Hok : consistentTables U.

Lemma letters_valid rs :
  forallb (letterOrDigit U) rs = true -> forallb validRune rs = true.
Proof.
  induction rs as [|r rs IH]; [reflexivity|]. cbn [forallb].
  intros [Hr Hrs]%andb_true_iff. rewrite (proj2 Hok r Hr). now apply IH.
Qed.

Lemma encodesLetters_iff s : lettersAndDigits U s = true <-> encodesLetters U s.
Proof.
  unfold lettersAndDigits, encodesLetters. split.
  - intros [Hl He]%andb_true_iff. apply String.eqb_eq in He.
    exists (runes s). split; [now symmetry|exact Hl].
  - intros (rs & -> & Hrs).
    rewrite (runes_encodeRunes rs (letters_valid rs Hrs)), Hrs.
    now rewrite String.eqb_refl.
Qed.

Lemma encodesLetters_nil : encodesLetters U "".
Proof. exists []. split; reflexivity. Qed.

Lemma encodesLetters_app a b :
  encodesLetters U a -> encodesLetters U b -> encodesLetters U (a +:+ b).
Proof.
  intros (ra & -> & Ha) (rb & -> & Hb). exists (ra ++ rb)%list. split.
  - now rewrite encodeRunes_app.
  - now rewrite forallb_app, Ha, Hb.
Qed.

Lemma encodesLetters_rune r :
  letterOrDigit U r = true -> encodesLetters U (encodeRune r).
Proof.
  intros Hr. exists [r]. split.
  - unfold encodeRunes. cbn [map String.concat]. reflexivity.
  - cbn [forallb]. now rewrite Hr.
Qed.

Lemma appendToLast_letters words x :
  Forall (encodesLetters U) words -> encodesLetters U x ->
  Forall (encodesLetters U) (appendToLast words x).
Proof.
  intros Hw Hx. destruct words as [|w0 ws0] using rev_ind; [constructor|].
  rewrite appendToLast_snoc. apply Forall_app in Hw as [Hws Hw0].
  apply Forall_app. split; [exact Hws|]. constructor; [|constructor].
  apply encodesLetters_app; [|exact Hx]. now inversion Hw0.
Qed.

Lemma fold_splitStep_letterWords rs :
  forall words next,
    Forall (encodesLetters U) words ->
    Forall (encodesLetters U) (fst (fold_left (splitStep U) rs (words, next))).
Proof.
  induction rs as [|r rs IH]; intros words next Hw; [exact Hw|].
  cbn [fold_left]. unfold splitStep at 2.
  fold (letterOrDigit U r). destruct (letterOrDigit U r) eqn:Hr; [|now apply IH].
  destruct next; apply IH; apply appendToLast_letters.
  - apply Forall_app. split; [exact Hw|]. constructor; [apply encodesLetters_nil|constructor].
  - apply encodesLetters_rune. now apply (proj1 Hok).
  - exact Hw.
  - now apply encodesLetters_rune.
Qed.

Lemma forceCase_letters word forceCases :
  Forall (encodesLetters U) forceCases -> encodesLetters U word ->
  encodesLetters U (forceCase U word forceCases).
Proof.
  intros Hf Hw. induction Hf as [|caseWord rest Hc _ IH]; [exact Hw|].
  cbn [forceCase]. destruct (strings_EqualFold U word caseWord); assumption.
Qed.

Lemma joinWords_letters words forceCases :
  Forall (encodesLetters U) forceCases -> Forall (encodesLetters U) words ->
  encodesLetters U (joinWords U words forceCases).
Proof.
  intros Hf. unfold joinWords.
  assert (H : forall acc, encodesLetters U acc -> Forall (encodesLetters U) words ->
                          encodesLetters U
                            (fold_left (fun result word => result +:+ forceCase U word forceCases)
                                       words acc)).
  { induction words as [|w ws IH]; intros acc Hacc Hws; [exact Hacc|].
    apply Forall_cons_iff in Hws as [Hw Hws]. cbn [fold_left]. apply IH; [|exact Hws].
    apply encodesLetters_app; [exact Hacc|]. now apply forceCase_letters. }
  apply H, encodesLetters_nil.
Qed.

Lemma convertToExportedIdentifier_letters s forceCases :
  forallb (lettersAndDigits U) forceCases = true ->
  lettersAndDigits U (convertToExportedIdentifier U s forceCases) = true.
Proof.
  intros Hf. apply encodesLetters_iff.
  assert (Hfc : Forall (encodesLetters U) forceCases).
  { induction forceCases as [|cw rest IH]; [constructor|].
    cbn [forallb] in Hf. apply andb_true_iff in Hf as [Hcw Hrest].
    constructor; [now apply encodesLetters_iff|now apply IH]. }
  assert (Hj : encodesLetters U (joinWords U (splitWords U s) forceCases)).
  { apply joinWords_letters; [exact Hfc|]. unfold splitWords.
    apply fold_splitStep_letterWords. constructor. }
  unfold convertToExportedIdentifier.
  destruct ((joinWords U (splitWords U s) forceCases =? "")%string
            || negb (IsUpper U (firstRune (joinWords U (splitWords U s) forceCases))));
    [|exact Hj].
  apply (encodesLetters_app "E"); [|exact Hj].
  apply (encodesLetters_rune 69). vm_compute. reflexivity.
Qed.

End Identifier.

Lemma greekTables_consistent : consistentTables greekTables.
Proof.
  split; intros r; unfold letterOrDigit, IsLetter, IsDigit, ToUpper, validRune,
                   inLatin1, MaxLatin1, MaxRune, RuneSelf, latin1Letter, isAsciiUpper,
                   isAsciiLower, isAsciiDigit, greekTables, oneOfRunes;
    cbn [tblIsLetter tblIsDigit tblToUpper existsb];
    repeat match goal with
           | |- context [if ?c then _ else _] =>
             let E := fresh "E" in destruct c eqn:E
           end; lia.
Qed.

(** The name [é] (U+00E9) becomes [É] (U+00C9), whatever the tables say
    above Latin-1. *)
Lemma convertToExportedIdentifier_latin1 (U : UnicodeTables) :
  convertToExportedIdentifier U "é" [] = "É".
Proof. vm_compute. reflexivity. Qed.

(** C2, as stated, fails twice. A letter outside ASCII is kept, so the
    identifier of the name [é] is [É], which is not ASCII. And a
    force-case word replaces every word it folds to, whatever it is made
    of: the combining mark U+0345 is no letter but folds to the Greek
    iota, so with that force-case word the name [ι] (U+03B9) becomes [E]
    followed by the mark, which is no identifier. *)
Lemma nonascii_name_counterexample :
  convertToExportedIdentifier latin1Tables "é" [] = "É"
  /\ isASCII (convertToExportedIdentifier latin1Tables "é" []) = false
  /\ asciiExported (convertToExportedIdentifier latin1Tables "é" []) = false
  /\ convertToExportedIdentifier greekTables (encodeRune 0x3B9) [encodeRune 0x345]
     = "E" +:+ encodeRune 0x345
  /\ letterOrDigit greekTables 0x345 = false
  /\ lettersAndDigits greekTables
       (convertToExportedIdentifier greekTables (encodeRune 0x3B9) [encodeRune 0x345])
     = false.
Proof. repeat split; vm_compute; reflexivity. Qed.

(** C2, amended: the identifier is never empty and starts with an
    upper-case letter in the sense of unicode.IsUpper; it is the joined
    words, with [E] in front exactly when they are empty or do not start
    with an upper-case letter. It is identifier-safe, in Unicode rather
    than in ASCII: whenever the force-case words are texts of letters and
    digits, the identifier is valid UTF-8 and every rune of it is a
    letter or a digit, so every other character of the name is gone (the
    Unicode tables being consistent: upper-casing keeps letters and digits
    such, and they are scalar values). For a name and force-case words in
    ASCII it holds only ASCII letters and digits, the first an upper-case
    ASCII letter. *)
Theorem convertToExportedIdentifier_exported (U : UnicodeTables)
        (s : string) (forceCases : list string) :
  let joined := joinWords U (splitWords U s) forceCases in
  let result := convertToExportedIdentifier U s forceCases in
  result <> ""
  /\ IsUpper U (firstRune result) = true
  /\ result = (if needsPrefix U joined then "E" +:+ joined else joined)
  /\ (isASCII s = true -> forallb isASCII forceCases = true ->
      asciiExported result = true)
  /\ (consistentTables U -> forallb (lettersAndDigits U) forceCases = true ->
      lettersAndDigits U result = true).
Proof.
  cbv zeta. pose proof (convertToExportedIdentifier_upper U s forceCases) as [H1 H2].
  repeat apply conj; try assumption; [reflexivity| |].
  - apply convertToExportedIdentifier_ascii.
  - intros Hok. now apply convertToExportedIdentifier_letters.
Qed.

Lemma convertToExportedIdentifier_exported_witness :
  (isASCII "2fa_token" = true
   /\ forallb isASCII ["ID"] = true
   /\ asciiExported (convertToExportedIdentifier latin1Tables "2fa_token" ["ID"]) = true)
  /\ (consistentTables greekTables
      /\ forallb (lettersAndDigits greekTables) ["ID"; "Éb"] = true
      /\ convertToExportedIdentifier greekTables "é-b c;d" ["ID"; "Éb"] = "ÉBCD"
      /\ lettersAndDigits greekTables
           (convertToExportedIdentifier greekTables "é-b c;d" ["ID"; "Éb"]) = true).
Proof.
  split.
  - split; [reflexivity|]. split; [reflexivity|].
    destruct (convertToExportedIdentifier_exported latin1Tables "2fa_token" ["ID"])
      as (_ & _ & _ & Hascii & _).
    apply Hascii; reflexivity.
  - split; [exact greekTables_consistent|]. split; [vm_compute; reflexivity|].
    split; [vm_compute; reflexivity|].
    destruct (convertToExportedIdentifier_exported greekTables "é-b c;d" ["ID"; "Éb"])
      as (_ & _ & _ & _ & Hletters).
    apply Hletters; [exact greekTables_consistent|vm_compute; reflexivity].
Defined.

(** ** The table renderer *)

Section Renderer.
Variable U : UnicodeTables.
Variable flags : Flags.t.

Lemma modelLines_spec opts fds :
  forall buf need,
    modelLines U fds opts buf need
    = match typeError U fds with
      | Some e => Err e
      | None => Ok (buf +:+ linesText U fds opts, need || needsTime fds)
      end.
Proof.
  induction fds as [|fd rest IH]; intros buf need; cbn [modelLines typeError linesText].
  - unfold needsTime. cbn [existsb]. now rewrite append_nil_r, orb_false_r.
  - unfold fieldLines, fieldText. destruct (getType U fd) as [goType|e]; [|reflexivity].
    rewrite IH. destruct (typeError U rest); [reflexivity|].
    unfold needsTime, commentLine, fieldLine. cbn [existsb].
    now rewrite !append_assoc, orb_assoc.
Qed.

Lemma generateTable_spec sf dbName tableName opts w :
  generateTable U flags sf dbName tableName opts w
  = match GetFieldDescriptors sf tableName with
    | Err e => (Some e, w)
    | Ok fds =>
      match typeError U fds with
      | Some e => (Some e, w)
      | None => openTruncWrite (outputFileOf flags tableName)
                               (tableText U dbName tableName opts fds) w
      end
    end.
Proof.
  unfold generateTable. destruct (GetFieldDescriptors sf tableName) as [fds|e]; [|reflexivity].
  rewrite modelLines_spec. destruct (typeError U fds); [reflexivity|].
  unfold writeToFile, bind. destruct (pathExists _ w) as [[ex err] w'] eqn:E.
  cbn [fst negb]. rewrite andb_false_r.
  assert (w' = w) as ->; [|reflexivity].
  revert E. unfold pathExists, bind, osStat, isNotExist, ret.
  repeat match goal with
         | |- context [match ?x with _ => _ end] => destruct x
         end; intros [= _ _ <-]; reflexivity.
Qed.

Lemma openTruncWrite_ok path text w w' :
  openTruncWrite path text w = (None, w') ->
  w' = {| fs := <[path := RegularFile text]> (fs w); stdin := stdin w;
          stdout := stdout w; stderr := stderr w |}.
Proof.
  unfold openTruncWrite.
  destruct (fs w !! path) as [[c|e|se e]|]; intros [= <-]; reflexivity.
Qed.

Lemma openTruncWrite_again path text w w' :
  openTruncWrite path text w = (None, w') ->
  openTruncWrite path text w' = (None, w').
Proof.
  intros H. apply openTruncWrite_ok in H as ->.
  unfold openTruncWrite. cbn [fs stdin stdout stderr].
  rewrite lookup_insert_eq, insert_insert_eq. reflexivity.
Qed.

Lemma openTruncWrite_streams path text w :
  let w' := snd (openTruncWrite path text w) in
  stdin w' = stdin w /\ stdout w' = stdout w /\ stderr w' = stderr w.
Proof.
  unfold openTruncWrite. destruct (fs w !! path) as [[c|e|se e]|]; cbn; auto.
Qed.

Lemma typeError_In fds :
  typeError U fds = None ->
  forall fd, In fd fds -> exists goType, getType U fd = Ok goType.
Proof.
  induction fds as [|fd0 rest IH]; intros H fd Hin; [destruct Hin|].
  cbn [typeError] in H. destruct (getType U fd0) as [g|e] eqn:E; [|discriminate].
  destruct Hin as [<-|Hin]; [now exists g|]. now apply IH.
Qed.

Lemma linesText_In opts fds :
  forall fd goType, In fd fds -> getType U fd = Ok goType ->
    exists pre post, linesText U fds opts = pre +:+ fieldLine U fd opts goType +:+ post.
Proof.
  induction fds as [|fd0 rest IH]; intros fd goType Hin Hg; [destruct Hin|].
  cbn [linesText]. destruct Hin as [->|Hin].
  - unfold fieldText. rewrite Hg. exists (commentLine fd), (linesText U rest opts).
    now rewrite append_assoc.
  - destruct (IH fd goType Hin Hg) as (pre & post & ->).
    exists (fieldText U fd0 opts +:+ pre), post. now rewrite append_assoc.
Qed.

End Renderer.

Lemma renderTable_shape U dbName tableName opts modeLines isNeedImportTime :
  renderTable U dbName tableName opts modeLines isNeedImportTime
  = structHead dbName (convertToExportedIdentifier U tableName (forceCases opts))
               isNeedImportTime
    +:+ modeLines +:+ "}" +:+ nl +:+ nl
    +:+ tableNameAccessor (convertToExportedIdentifier U tableName (forceCases opts))
                          tableName.
Proof.
  unfold renderTable, structHead, tableNameAccessor, timeImport.
  destruct isNeedImportTime; rewrite !append_assoc; reflexivity.
Qed.

(** C8: in a generated file every field has its line, whose tag is, for
    the style [gorm], the column name as the database gives it, and empty
    for any other style; the file ends with the accessor that returns the
    table name as the database gives it; and no style makes the
    generation of the table fail. *)
Theorem runtime_names_verbatim (U : UnicodeTables) (flags : Flags.t)
        (sf : schemaFetcher) (dbName tableName : string) (opts : options)
        (fds : list fieldDescriptor) (w w' : World) :
  GetFieldDescriptors sf tableName = Ok fds ->
  generateTable U flags sf dbName tableName opts w = (None, w') ->
  (exists text,
      writtenFile w' (outputFileOf flags tableName) = Some text
      /\ (forall fd, In fd fds ->
            getTag fd opts = (if (tag opts =? "gorm")%string then gormTag (Name fd) else "")
            /\ exists goType pre post,
                getType U fd = Ok goType
                /\ text = pre
                          +:+ (tab +:+ convertToExportedIdentifier U (Name fd) (forceCases opts)
                               +:+ " " +:+ goType +:+ " "
                               +:+ (if (tag opts =? "gorm")%string
                                    then gormTag (Name fd) else "")
                               +:+ nl)
                          +:+ post)
      /\ exists head,
          text = head +:+ tableNameAccessor
                            (convertToExportedIdentifier U tableName (forceCases opts))
                            tableName)
  /\ forall style,
      fst (generateTable U flags sf dbName tableName (withTag opts style) w) = None.
Proof.
  intros Hfds Hgen. rewrite generateTable_spec, Hfds in Hgen.
  destruct (typeError U fds) eqn:Hte; [discriminate|]. split.
  - apply openTruncWrite_ok in Hgen as ->.
    exists (tableText U dbName tableName opts fds). split.
    { unfold writtenFile. cbn [fs]. now rewrite lookup_insert_eq. }
    unfold tableText. rewrite renderTable_shape.
    set (className := convertToExportedIdentifier U tableName (forceCases opts)).
    set (head := structHead dbName className (needsTime fds)).
    set (accessor := tableNameAccessor className tableName).
    split.
    + intros fd Hin. split; [reflexivity|].
      destruct (typeError_In U fds Hte fd Hin) as [goType Hg].
      destruct (linesText_In U opts fds fd goType Hin Hg) as (pre & post & Hl).
      exists goType, (head +:+ pre), (post +:+ "}" +:+ nl +:+ nl +:+ accessor).
      split; [exact Hg|]. rewrite Hl.
      change (fieldLine U fd opts goType)
        with (tab +:+ convertToExportedIdentifier U (Name fd) (forceCases opts)
              +:+ " " +:+ goType +:+ " "
              +:+ (if (tag opts =? "gorm")%string then gormTag (Name fd) else "")
              +:+ nl).
      generalize (tab +:+ convertToExportedIdentifier U (Name fd) (forceCases opts)
              +:+ " " +:+ goType +:+ " "
              +:+ (if (tag opts =? "gorm")%string then gormTag (Name fd) else "")
              +:+ nl) as line.
      intros line. now rewrite !append_assoc.
    + exists (head +:+ linesText U fds opts +:+ "}" +:+ nl +:+ nl).
      now rewrite !append_assoc.
  - intros style. rewrite generateTable_spec, Hfds, Hte.
    unfold openTruncWrite in *.
    destruct (fs w !! outputFileOf flags tableName) as [[c|e|se e]|];
      try discriminate; reflexivity.
Qed.

Lemma runtime_names_verbatim_witness :
  generateTable latin1Tables sampleFlags sampleFetcher "shop" "users" sampleOptions emptyWorld
    = (None, usersWorld)
  /\ exists text,
      writtenFile usersWorld "out/users.go" = Some text
      /\ exists head, text = head +:+ tableNameAccessor "Users" "users".
Proof.
  assert (Hgen : generateTable latin1Tables sampleFlags sampleFetcher "shop" "users"
                               sampleOptions emptyWorld = (None, usersWorld))
    by (vm_compute; reflexivity).
  split; [exact Hgen|].
  destruct (runtime_names_verbatim latin1Tables sampleFlags sampleFetcher "shop" "users"
              sampleOptions _ emptyWorld usersWorld eq_refl Hgen)
    as [(text & Hfile & _ & Hacc) _].
  exists text. split; [exact Hfile|exact Hacc].
Defined.

(** ** Determinism *)

(** C9: the text of a table's file is a function of the database name,
    the table name, the field descriptors and the options. Two runs that
    see the same descriptors, from whatever state of the file system,
    leave the same bytes in the file, and a run repeated on the state the
    first one left changes nothing. *)
Theorem generateTable_deterministic (U : UnicodeTables) (flags : Flags.t)
        (sf sf' : schemaFetcher) (dbName tableName : string) (opts : options)
        (w1 w1' w2 w2' : World) :
  GetFieldDescriptors sf tableName = GetFieldDescriptors sf' tableName ->
  generateTable U flags sf dbName tableName opts w1 = (None, w1') ->
  generateTable U flags sf' dbName tableName opts w2 = (None, w2') ->
  (exists text,
      writtenFile w1' (outputFileOf flags tableName) = Some text
      /\ writtenFile w2' (outputFileOf flags tableName) = Some text)
  /\ generateTable U flags sf dbName tableName opts w1' = (None, w1').
Proof.
  intros Hsame H1 H2. rewrite generateTable_spec in *. rewrite <- Hsame in H2.
  destruct (GetFieldDescriptors sf tableName) as [fds|e]; [|discriminate].
  destruct (typeError U fds); [discriminate|]. split.
  - exists (tableText U dbName tableName opts fds).
    apply openTruncWrite_ok in H1 as ->. apply openTruncWrite_ok in H2 as ->.
    unfold writtenFile. cbn [fs]. now rewrite !lookup_insert_eq.
  - exact (openTruncWrite_again _ _ w1 w1' H1).
Qed.

Lemma generateTable_deterministic_witness :
  (exists text,
      writtenFile usersWorld "out/users.go" = Some text
      /\ writtenFile (snd (generateTable latin1Tables sampleFlags sampleFetcher "shop" "users"
                                         sampleOptions staleWorld))
                     "out/users.go" = Some text)
  /\ generateTable latin1Tables sampleFlags sampleFetcher "shop" "users" sampleOptions usersWorld
     = (None, usersWorld).
Proof.
  apply (generateTable_deterministic latin1Tables sampleFlags sampleFetcher sampleFetcher
           "shop" "users" sampleOptions emptyWorld usersWorld staleWorld
           (snd (generateTable latin1Tables sampleFlags sampleFetcher "shop" "users"
                               sampleOptions staleWorld)));
    vm_compute; reflexivity.
Defined.

(** ** Overwriting an existing file *)

Lemma pathExists_world path w : snd (pathExists path w) = w.
Proof.
  unfold pathExists, bind, osStat, isNotExist, ret.
  destruct (fs w !! path) as [[c|e|[se|] e]|] eqn:E; cbn; rewrite ?E; reflexivity.
Qed.

Lemma pathExists_true path w :
  fst (fst (pathExists path w)) = true <->
  (exists content, fs w !! path = Some (RegularFile content))
  \/ (exists e, fs w !! path = Some (Present e)).
Proof.
  unfold pathExists, bind, osStat, isNotExist, ret.
  destruct (fs w !! path) as [[c|e|[se|] e]|] eqn:E; cbn; rewrite ?E; cbn;
    split; intros H; eauto; try discriminate;
    destruct H as [[x H]|[x H]]; discriminate.
Qed.

Lemma Scanln_spec w :
  Scanln w = (hd "" (stdin w),
              {| fs := fs w; stdin := tl (stdin w); stdout := stdout w; stderr := stderr w |}).
Proof. unfold Scanln. destruct w as [f [|x rest] o e]; reflexivity. Qed.

Lemma writeToFile_forced buffer outputFile w :
  writeToFile buffer outputFile true w = openTruncWrite outputFile buffer w.
Proof.
  unfold writeToFile, bind. pose proof (pathExists_world outputFile w) as Hw.
  destruct (pathExists outputFile w) as [ex w0]. cbn [snd] in Hw. subst w0.
  cbn [negb]. now rewrite andb_false_r.
Qed.

Lemma writeToFile_unforced buffer outputFile w :
  writeToFile buffer outputFile false w
  = if fst (fst (pathExists outputFile w)) then
      if accepts (hd "" (stdin w))
      then openTruncWrite outputFile buffer (asked outputFile w)
      else (None, skipped outputFile w)
    else openTruncWrite outputFile buffer w.
Proof.
  unfold writeToFile, bind. pose proof (pathExists_world outputFile w) as Hw.
  destruct (pathExists outputFile w) as [[ex err] w0]. cbn [snd] in Hw. subst w0.
  cbn [fst negb]. rewrite andb_true_r. destruct ex; [|reflexivity].
  unfold printStdout at 1. rewrite Scanln_spec. cbn [fs stdin stdout stderr].
  unfold accepts, asked, skipped.
  destruct (hd "" (stdin w) =? "Y")%string, (hd "" (stdin w) =? "y")%string; reflexivity.
Qed.

Lemma openTruncWrite_regular path text old w :
  fs w !! path = Some (RegularFile old) ->
  openTruncWrite path text w = (None, overwritten w path text).
Proof. intros H. unfold openTruncWrite. now rewrite H. Qed.

Lemma pathExists_regular path old w :
  fs w !! path = Some (RegularFile old) -> fst (fst (pathExists path w)) = true.
Proof. intros H. apply pathExists_true. left. now exists old. Qed.

(** C4: [writeToFile] takes the decision from its [force] flag. Forced,
    it asks nothing and writes the buffer over the file, and writing
    again changes nothing. Not forced, with the file there, it prints the
    question and reads the answer; any answer but [Y] or [y] leaves the
    files as they were and returns no error. [generateTable] always
    forces, so it never asks and never reads. Where the output file is a
    regular file, the forced call returns no error and leaves the file
    with the buffer as its whole content, a second call changes nothing,
    the call that is not forced overwrites it after the question when the
    answer is [Y] or [y] and skips it otherwise, and [generateTable]
    replaces it by the text of the table, again and again. *)
Theorem writeToFile_overwrite_decision (U : UnicodeTables) (flags : Flags.t)
        (sf : schemaFetcher) (dbName tableName : string) (opts : options)
        (buffer outputFile : string) (w : World) :
  (writeToFile buffer outputFile true w = openTruncWrite outputFile buffer w
   /\ forall w', writeToFile buffer outputFile true w = (None, w') ->
        writtenFile w' outputFile = Some buffer
        /\ stdin w' = stdin w /\ stdout w' = stdout w
        /\ writeToFile buffer outputFile true w' = (None, w'))
  /\ (fst (fst (pathExists outputFile w)) = true ->
      writeToFile buffer outputFile false w
      = if accepts (hd "" (stdin w))
        then openTruncWrite outputFile buffer (asked outputFile w)
        else (None, skipped outputFile w))
  /\ (fs (skipped outputFile w) = fs w
      /\ stdout (skipped outputFile w)
         = (stdout w +:+ overwritePrompt outputFile) +:+ "skip" +:+ outputFile +:+ nl)
  /\ (let w' := snd (generateTable U flags sf dbName tableName opts w) in
      stdin w' = stdin w /\ stdout w' = stdout w)
  /\ (forall old, fs w !! outputFile = Some (RegularFile old) ->
      writeToFile buffer outputFile true w = (None, overwritten w outputFile buffer)
      /\ writeToFile buffer outputFile true (overwritten w outputFile buffer)
         = (None, overwritten w outputFile buffer)
      /\ writtenFile (overwritten w outputFile buffer) outputFile = Some buffer
      /\ writeToFile buffer outputFile false w
         = if accepts (hd "" (stdin w))
           then (None, overwritten (asked outputFile w) outputFile buffer)
           else (None, skipped outputFile w))
  /\ (forall fds old,
         GetFieldDescriptors sf tableName = Ok fds -> typeError U fds = None ->
         fs w !! outputFileOf flags tableName = Some (RegularFile old) ->
         let done := overwritten w (outputFileOf flags tableName)
                                 (tableText U dbName tableName opts fds) in
         generateTable U flags sf dbName tableName opts w = (None, done)
         /\ generateTable U flags sf dbName tableName opts done = (None, done)).
Proof.
  split; [split; [apply writeToFile_forced|]|].
  - intros w' H. rewrite writeToFile_forced in *.
    pose proof (openTruncWrite_again _ _ _ _ H) as Hagain.
    apply openTruncWrite_ok in H as ->. unfold writtenFile. cbn [fs stdin stdout].
    rewrite lookup_insert_eq. repeat split. exact Hagain.
  - split; [|split; [split; reflexivity|split; [|split]]].
    + intros Hex. now rewrite writeToFile_unforced, Hex.
    + cbv zeta. rewrite generateTable_spec.
      destruct (GetFieldDescriptors sf tableName) as [fds|e]; [|split; reflexivity].
      destruct (typeError U fds); [split; reflexivity|].
      pose proof (openTruncWrite_streams (outputFileOf flags tableName)
                    (tableText U dbName tableName opts fds) w) as (H1 & H2 & _).
      split; assumption.
    + intros old Hold.
      pose proof (openTruncWrite_regular outputFile buffer old w Hold) as Hw.
      split; [now rewrite writeToFile_forced|].
      split; [rewrite writeToFile_forced; exact (openTruncWrite_again _ _ _ _ Hw)|].
      split; [unfold writtenFile, overwritten; cbn [fs]; now rewrite lookup_insert_eq|].
      rewrite writeToFile_unforced, (pathExists_regular outputFile old w Hold).
      destruct (accepts (hd "" (stdin w))); [|reflexivity].
      now apply (openTruncWrite_regular outputFile buffer old (asked outputFile w)).
    + intros fds old Hfds Hte Hold. cbv zeta.
      pose proof (openTruncWrite_regular (outputFileOf flags tableName)
                    (tableText U dbName tableName opts fds) old w Hold) as Hw.
      rewrite !generateTable_spec, Hfds, Hte. split; [exact Hw|].
      exact (openTruncWrite_again _ _ _ _ Hw).
Qed.

Lemma writeToFile_overwrite_decision_witness :
  fst (fst (pathExists "out/users.go" staleWorld)) = true
  /\ writeToFile "package new" "out/users.go" false staleWorld
     = (None, skipped "out/users.go" staleWorld)
  /\ writtenFile (skipped "out/users.go" staleWorld) "out/users.go" = Some "package old"
  /\ fs staleWorld !! "out/users.go" = Some (RegularFile "package old")
  /\ writeToFile "package new" "out/users.go" true staleWorld
     = (None, overwritten staleWorld "out/users.go" "package new")
  /\ writtenFile (overwritten staleWorld "out/users.go" "package new") "out/users.go"
     = Some "package new".
Proof.
  destruct (writeToFile_overwrite_decision latin1Tables sampleFlags sampleFetcher "shop"
              "users" sampleOptions "package new" "out/users.go" staleWorld)
    as (_ & Hdeclined & _ & _ & Hforced & _).
  assert (Hold : fs staleWorld !! "out/users.go" = Some (RegularFile "package old"))
    by reflexivity.
  destruct (Hforced "package old" Hold) as (Hwrite & _ & Hfile & _).
  split; [reflexivity|]. split; [exact (Hdeclined eq_refl)|].
  split; [vm_compute; reflexivity|]. split; [exact Hold|].
  split; [exact Hwrite|exact Hfile].
Defined.

(** ** The driver *)

Section Driver.
Variable U : UnicodeTables.
Variable flags : Flags.t.

Lemma modelLines_tableNames fds opts names :
  forall buf need,
    modelLines U fds (withTableNames opts names) buf need = modelLines U fds opts buf need.
Proof.
  induction fds as [|fd rest IH]; intros buf need; [reflexivity|].
  cbn [modelLines]. unfold fieldLines, getTag. cbn [forceCases tag withTableNames].
  destruct (getType U fd); [|reflexivity]. apply IH.
Qed.

(** [generateTable] does not look at the list of table names. *)
Lemma generateTable_tableNames sf dbName tableName opts names w :
  generateTable U flags sf dbName tableName (withTableNames opts names) w
  = generateTable U flags sf dbName tableName opts w.
Proof.
  unfold generateTable. destruct (GetFieldDescriptors sf tableName); [|reflexivity].
  rewrite modelLines_tableNames. reflexivity.
Qed.

Lemma generateTables_tableNames sf dbName opts names tables :
  forall w,
    generateTables U flags sf dbName tables (withTableNames opts names) w
    = generateTables U flags sf dbName tables opts w.
Proof.
  induction tables as [|t rest IH]; intros w; [reflexivity|].
  cbn [generateTables]. unfold bind. destruct (printStderr _ w) as [u w0].
  rewrite generateTable_tableNames.
  destruct (generateTable U flags sf dbName t opts w0) as [[e|] w1]; [reflexivity|apply IH].
Qed.

(** The loop stops at the first table whose render fails. *)
Lemma generateTables_first_error sf dbName opts pre t post e :
  forall w w1 w2,
    generateTables U flags sf dbName pre opts w = (None, w1) ->
    generateTable U flags sf dbName t opts (announced t w1) = (Some e, w2) ->
    generateTables U flags sf dbName (pre ++ t :: post) opts w = (Some e, w2).
Proof.
  induction pre as [|p pre IH]; intros w w1 w2 Hpre Ht.
  - injection Hpre as <-. cbn [app generateTables]. unfold bind.
    unfold announced in Ht. destruct (printStderr _ w) as [u w0]. cbn [snd] in Ht.
    now rewrite Ht.
  - cbn [app generateTables] in *. unfold bind in *.
    destruct (printStderr _ w) as [u w0].
    destruct (generateTable U flags sf dbName p opts w0) as [[e0|] w0'].
    + discriminate.
    + now apply (IH w0' w1 w2).
Qed.

Variable DB : Type.
Variable sqlOpen : string -> string -> result DB.
Variable fetcherOf : string -> DB -> schemaFetcher.
Variable cmd : string.

(** Past its checks [Generate] is its loop over the resolved names. *)
Lemma Generate_loop driverName exampleDataSourceName db dbName names w :
  Flags.outputPath flags <> "" ->
  Flags.databaseConnection flags <> "" ->
  sqlOpen driverName (Flags.databaseConnection flags) = Ok db ->
  oneOf driverName ["mysql"; "sqlite3"; "postgres"] = true ->
  GetDatabaseName (fetcherOf driverName db) = Ok dbName ->
  dbName <> "" ->
  (if (length (tableNames (optionsOfFlags flags)) =? 0)%nat
   then GetTableNames (fetcherOf driverName db)
   else Ok (tableNames (optionsOfFlags flags))) = Ok names ->
  Generate U flags DB sqlOpen fetcherOf cmd driverName exampleDataSourceName w
  = (Return (fst (generateTables U flags (fetcherOf driverName db) dbName names
                                 (optionsOfFlags flags) w)),
     snd (generateTables U flags (fetcherOf driverName db) dbName names
                         (optionsOfFlags flags) w)).
Proof.
  intros Ho Hc Hopen Hdrv Hname Hne Hnames. unfold Generate.
  destruct (String.eqb_spec (Flags.outputPath flags) ""); [contradiction|].
  destruct (String.eqb_spec (Flags.databaseConnection flags) ""); [contradiction|].
  cbv zeta.
  change (dataSourceName (optionsOfFlags flags)) with (Flags.databaseConnection flags).
  rewrite Hopen. unfold getSchemaFetcherFactory. rewrite Hdrv, Hname.
  destruct (String.eqb_spec dbName ""); [contradiction|].
  rewrite Hnames. unfold bind, ret.
  rewrite generateTables_tableNames.
  destruct (generateTables U flags (fetcherOf driverName db) dbName names
                           (optionsOfFlags flags) w) as [err w'].
  reflexivity.
Qed.

End Driver.

(** C5: [Generate] renders the tables in the order of the list. When the
    tables before [t] render without error and the render of [t] returns
    the error [e], [Generate] returns [e] in the state that render left:
    whatever tables follow [t] in the list are not touched. *)
Theorem Generate_stops_at_first_error (U : UnicodeTables) (flags : Flags.t)
        (DB : Type) (sqlOpen : string -> string -> result DB)
        (fetcherOf : string -> DB -> schemaFetcher) (cmd : string)
        (driverName exampleDataSourceName : string) (db : DB) (dbName : string)
        (pre : list string) (t : string) (post : list string) (e : error)
        (w w1 w2 : World) :
  let sf := fetcherOf driverName db in
  let opts := optionsOfFlags flags in
  Flags.outputPath flags <> "" ->
  Flags.databaseConnection flags <> "" ->
  sqlOpen driverName (Flags.databaseConnection flags) = Ok db ->
  oneOf driverName ["mysql"; "sqlite3"; "postgres"] = true ->
  GetDatabaseName sf = Ok dbName ->
  dbName <> "" ->
  (if (length (tableNames opts) =? 0)%nat then GetTableNames sf
   else Ok (tableNames opts)) = Ok (pre ++ t :: post)%list ->
  generateTables U flags sf dbName pre opts w = (None, w1) ->
  generateTable U flags sf dbName t opts (announced t w1) = (Some e, w2) ->
  generateTables U flags sf dbName (pre ++ t :: post) opts w = (Some e, w2)
  /\ Generate U flags DB sqlOpen fetcherOf cmd driverName exampleDataSourceName w
     = (Return (Some e), w2).
Proof.
  intros sf opts Ho Hc Hopen Hdrv Hname Hne Hnames Hpre Ht.
  pose proof (generateTables_first_error U flags sf dbName opts pre t post e w w1 w2 Hpre Ht)
    as Hloop.
  split; [exact Hloop|].
  rewrite (Generate_loop U flags DB sqlOpen fetcherOf cmd driverName exampleDataSourceName
             db dbName (pre ++ t :: post) w Ho Hc Hopen Hdrv Hname Hne Hnames).
  fold sf opts. now rewrite Hloop.
Qed.

Lemma Generate_stops_at_first_error_witness :
  tableNames (optionsOfFlags sampleFlags) = ["users"; "audit"; "events"]
  /\ Generate latin1Tables sampleFlags unit sampleOpen sampleFetcherOf "sqlm-gen-mysql"
              "mysql" "user:password@/shop" emptyWorld
     = (Return (Some "unknown field type uuid"), announced "audit" usersDone)
  /\ writtenFile (announced "audit" usersDone) "out/events.go" = None.
Proof.
  split; [reflexivity|]. split; [|vm_compute; reflexivity].
  apply (Generate_stops_at_first_error latin1Tables sampleFlags unit sampleOpen
           sampleFetcherOf "sqlm-gen-mysql" "mysql" "user:password@/shop" tt "shop"
           ["users"] "audit" ["events"] "unknown field type uuid"
           emptyWorld usersDone (announced "audit" usersDone));
    try discriminate; vm_compute; reflexivity.
Defined.

(** * Further properties *)

(** ** What a run reads and prints *)

Section Streams.
Variable U : UnicodeTables.
Variable flags : Flags.t.

Lemma generateTable_streams sf dbName tableName opts w :
  let w' := snd (generateTable U flags sf dbName tableName opts w) in
  stdin w' = stdin w /\ stdout w' = stdout w /\ stderr w' = stderr w.
Proof.
  cbv zeta. rewrite generateTable_spec.
  destruct (GetFieldDescriptors sf tableName) as [fds|e]; [|now repeat split].
  destruct (typeError U fds); [now repeat split|].
  apply openTruncWrite_streams.
Qed.

Lemma generateTables_streams sf dbName opts names :
  forall w,
    let w' := snd (generateTables U flags sf dbName names opts w) in
    stdin w' = stdin w /\ stdout w' = stdout w.
Proof.
  induction names as [|t rest IH]; intros w; cbv zeta; [now split|].
  cbn [generateTables]. unfold bind, printStderr.
  pose proof (generateTable_streams sf dbName t opts
                {| fs := fs w; stdin := stdin w; stdout := stdout w;
                   stderr := stderr w +:+ ("Generating " +:+ t +:+ nl) |})
    as (H1 & H2 & _).
  destruct (generateTable U flags sf dbName t opts _) as [[e|] w1]; cbn [snd stdin stdout] in *.
  - unfold ret. cbn [snd]. split; assumption.
  - destruct (IH w1) as (I1 & I2). split; congruence.
Qed.

End Streams.

(** X1: whatever its flags, driver and environment, [Generate] never
    reads standard input and never writes to standard output: it always
    forces the overwrite, so the question of [writeToFile] is never put,
    and everything it prints goes to stderr. *)
Theorem Generate_never_prompts (U : UnicodeTables) (flags : Flags.t)
        (DB : Type) (sqlOpen : string -> string -> result DB)
        (fetcherOf : string -> DB -> schemaFetcher) (cmd : string)
        (driverName exampleDataSourceName : string) (w : World) :
  let w' := snd (Generate U flags DB sqlOpen fetcherOf cmd driverName
                          exampleDataSourceName w) in
  stdin w' = stdin w /\ stdout w' = stdout w.
Proof.
  cbv zeta. unfold Generate, printUsageAndExit, bind, ret, printStderr.
  destruct (Flags.outputPath flags =? "")%string; [now split|].
  destruct (Flags.databaseConnection flags =? "")%string; [now split|].
  destruct (sqlOpen driverName _) as [db|e]; [|now split].
  destruct (getSchemaFetcherFactory DB fetcherOf driverName) as [factory|];
    [|now split].
  destruct (GetDatabaseName (factory db)) as [dbName|e]; [|now split].
  destruct (dbName =? "")%string; [now split|].
  destruct (if (length (tableNames (optionsOfFlags flags)) =? 0)%nat
            then GetTableNames (factory db)
            else Ok (tableNames (optionsOfFlags flags))) as [names|e];
    [|now split].
  pose proof (generateTables_streams U flags (factory db) dbName
                (withTableNames (optionsOfFlags flags) names) names w) as (H1 & H2).
  destruct (generateTables U flags (factory db) dbName names _ w) as [err w'].
  cbn [snd] in *. split; assumption.
Qed.

(** ** The checks of [Generate] before its loop *)

(** X2: without an output path or without a database connection
    [Generate] prints the usage text on stderr and exits with status 1;
    it opens no connection and changes no file. *)
Theorem Generate_usage_exit (U : UnicodeTables) (flags : Flags.t)
        (DB : Type) (sqlOpen : string -> string -> result DB)
        (fetcherOf : string -> DB -> schemaFetcher) (cmd : string)
        (driverName exampleDataSourceName : string) (w : World) :
  Flags.outputPath flags = "" \/ Flags.databaseConnection flags = "" ->
  Generate U flags DB sqlOpen fetcherOf cmd driverName exampleDataSourceName w
  = (Exit 1, withStderr w (usage cmd exampleDataSourceName)).
Proof.
  intros H. unfold Generate.
  destruct (String.eqb_spec (Flags.outputPath flags) "") as [_|Ho]; [reflexivity|].
  destruct (String.eqb_spec (Flags.databaseConnection flags) "") as [_|Hc]; [reflexivity|].
  destruct H; contradiction.
Qed.

Lemma Generate_usage_exit_witness :
  Generate latin1Tables noOutputFlags unit sampleOpen sampleFetcherOf "sqlm-gen-mysql"
           "mysql" "user:password@/shop" emptyWorld
  = (Exit 1, withStderr emptyWorld (usage "sqlm-gen-mysql" "user:password@/shop")).
Proof.
  apply (Generate_usage_exit latin1Tables noOutputFlags unit sampleOpen sampleFetcherOf
           "sqlm-gen-mysql" "mysql" "user:password@/shop" emptyWorld).
  left. reflexivity.
Defined.

(** X3: a driver name other than mysql, sqlite3 and postgres ends the
    process with status 2 and the line [unsupported driver <name>] on
    stderr, but only once sql.Open has accepted the name; nothing is
    written. *)
Theorem Generate_unsupported_driver (U : UnicodeTables) (flags : Flags.t)
        (DB : Type) (sqlOpen : string -> string -> result DB)
        (fetcherOf : string -> DB -> schemaFetcher) (cmd : string)
        (driverName exampleDataSourceName : string) (db : DB) (w : World) :
  Flags.outputPath flags <> "" ->
  Flags.databaseConnection flags <> "" ->
  sqlOpen driverName (Flags.databaseConnection flags) = Ok db ->
  oneOf driverName ["mysql"; "sqlite3"; "postgres"] = false ->
  Generate U flags DB sqlOpen fetcherOf cmd driverName exampleDataSourceName w
  = (Exit 2, withStderr w ("unsupported driver " +:+ driverName +:+ nl)).
Proof.
  intros Ho Hc Hopen Hdrv. unfold Generate.
  destruct (String.eqb_spec (Flags.outputPath flags) ""); [contradiction|].
  destruct (String.eqb_spec (Flags.databaseConnection flags) ""); [contradiction|].
  cbv zeta.
  change (dataSourceName (optionsOfFlags flags)) with (Flags.databaseConnection flags).
  rewrite Hopen. unfold getSchemaFetcherFactory. rewrite Hdrv. reflexivity.
Qed.

Lemma Generate_unsupported_driver_witness :
  Generate latin1Tables sampleFlags unit sampleOpen sampleFetcherOf "sqlm-gen"
           "oracle" "user:password@/shop" emptyWorld
  = (Exit 2, withStderr emptyWorld ("unsupported driver oracle" +:+ nl)).
Proof.
  apply (Generate_unsupported_driver latin1Tables sampleFlags unit sampleOpen
           sampleFetcherOf "sqlm-gen" "oracle" "user:password@/shop" tt emptyWorld);
    try discriminate; reflexivity.
Defined.

(** X4: with both flags given, an error of sql.Open, of GetDatabaseName
    or of GetTableNames is returned as it is, an empty database name gives
    the error [no database selected], and in each case [Generate] prints
    nothing and writes nothing. GetTableNames is only asked when the flag
    [-t] is empty. *)
Theorem Generate_early_errors (U : UnicodeTables) (flags : Flags.t)
        (DB : Type) (sqlOpen : string -> string -> result DB)
        (fetcherOf : string -> DB -> schemaFetcher) (cmd : string)
        (driverName exampleDataSourceName : string) (w : World) :
  Flags.outputPath flags <> "" ->
  Flags.databaseConnection flags <> "" ->
  let run := Generate U flags DB sqlOpen fetcherOf cmd driverName exampleDataSourceName w in
  (forall e, sqlOpen driverName (Flags.databaseConnection flags) = Err e ->
             run = (Return (Some e), w))
  /\ (forall db, sqlOpen driverName (Flags.databaseConnection flags) = Ok db ->
        oneOf driverName ["mysql"; "sqlite3"; "postgres"] = true ->
        let sf := fetcherOf driverName db in
        (forall e, GetDatabaseName sf = Err e -> run = (Return (Some e), w))
        /\ (GetDatabaseName sf = Ok "" -> run = (Return (Some "no database selected"), w))
        /\ (forall dbName e,
               GetDatabaseName sf = Ok dbName -> dbName <> "" ->
               Flags.tables flags = "" -> GetTableNames sf = Err e ->
               run = (Return (Some e), w))).
Proof.
  intros Ho Hc. cbv zeta. unfold Generate.
  destruct (String.eqb_spec (Flags.outputPath flags) ""); [contradiction|].
  destruct (String.eqb_spec (Flags.databaseConnection flags) ""); [contradiction|].
  cbv zeta.
  change (dataSourceName (optionsOfFlags flags)) with (Flags.databaseConnection flags).
  split.
  - intros e ->. reflexivity.
  - intros db -> Hdrv. unfold getSchemaFetcherFactory. rewrite Hdrv.
    split; [|split].
    + intros e ->. reflexivity.
    + intros ->. reflexivity.
    + intros dbName e -> Hne Ht He.
      destruct (String.eqb_spec dbName ""); [contradiction|].
      unfold optionsOfFlags at 1. cbn [tableNames]. rewrite Ht.
      cbn. rewrite He. reflexivity.
Qed.

Lemma Generate_early_errors_witness :
  Generate latin1Tables sampleFlags unit sampleOpen noDatabaseFetcherOf "sqlm-gen-mysql"
           "mysql" "user:password@/" emptyWorld
  = (Return (Some "no database selected"), emptyWorld).
Proof.
  assert (Ho : Flags.outputPath sampleFlags <> "") by discriminate.
  assert (Hc : Flags.databaseConnection sampleFlags <> "") by discriminate.
  destruct (Generate_early_errors latin1Tables sampleFlags unit sampleOpen
              noDatabaseFetcherOf "sqlm-gen-mysql" "mysql" "user:password@/" emptyWorld
              Ho Hc) as [_ H].
  destruct (H tt eq_refl eq_refl) as (_ & Hempty & _).
  apply Hempty. reflexivity.
Defined.

(** ** A run without errors *)

Section Success.
Variable U : UnicodeTables.
Variable flags : Flags.t.

Lemma generateTable_rendered sf dbName tableName opts w w' :
  generateTable U flags sf dbName tableName opts w = (None, w') ->
  stderr w' = stderr w
  /\ exists fds, GetFieldDescriptors sf tableName = Ok fds /\ typeError U fds = None.
Proof.
  rewrite generateTable_spec.
  destruct (GetFieldDescriptors sf tableName) as [fds|e]; [|discriminate].
  destruct (typeError U fds) eqn:Hte; [discriminate|].
  intros H. apply openTruncWrite_ok in H as ->. split; [reflexivity|].
  exists fds. split; [reflexivity|exact Hte].
Qed.

Lemma generateTables_rendered sf dbName opts names :
  forall w w',
    generateTables U flags sf dbName names opts w = (None, w') ->
    stderr w' = stderr w +:+ announcements names
    /\ forall t, In t names ->
         exists fds, GetFieldDescriptors sf t = Ok fds /\ typeError U fds = None.
Proof.
  induction names as [|t rest IH]; intros w w' H.
  - injection H as <-. cbn [announcements]. rewrite append_nil_r.
    split; [reflexivity|intros t []].
  - cbn [generateTables] in H. unfold bind, printStderr in H.
    destruct (generateTable U flags sf dbName t opts _) as [[e|] w1] eqn:Ht;
      [discriminate|].
    destruct (generateTable_rendered _ _ _ _ _ _ Ht) as (Herr & Hfds).
    destruct (IH w1 w' H) as [Hrest Hall]. cbn [stderr] in Herr. split.
    + rewrite Hrest, Herr. cbn [announcements]. now rewrite !append_assoc.
    + intros t' [<-|Hin]; [exact Hfds|now apply Hall].
Qed.

End Success.

(** X5: when [Generate] returns without error, it has printed one line
    [Generating <name>] on stderr per table, in the order of the list and
    nothing else, and for every table of the list the fetcher returned
    its columns and [getType] mapped the type of every one of them. *)
Theorem Generate_success (U : UnicodeTables) (flags : Flags.t)
        (DB : Type) (sqlOpen : string -> string -> result DB)
        (fetcherOf : string -> DB -> schemaFetcher) (cmd : string)
        (driverName exampleDataSourceName : string) (db : DB) (dbName : string)
        (names : list string) (w w' : World) :
  let sf := fetcherOf driverName db in
  Flags.outputPath flags <> "" ->
  Flags.databaseConnection flags <> "" ->
  sqlOpen driverName (Flags.databaseConnection flags) = Ok db ->
  oneOf driverName ["mysql"; "sqlite3"; "postgres"] = true ->
  GetDatabaseName sf = Ok dbName ->
  dbName <> "" ->
  resolvedNames flags sf = Ok names ->
  Generate U flags DB sqlOpen fetcherOf cmd driverName exampleDataSourceName w
    = (Return None, w') ->
  stderr w' = stderr w +:+ announcements names
  /\ forall t, In t names ->
       exists fds,
         GetFieldDescriptors sf t = Ok fds
         /\ typeError U fds = None
         /\ forall fd, In fd fds -> exists goType, getType U fd = Ok goType.
Proof.
  intros sf Ho Hc Hopen Hdrv Hname Hne Hnames Hrun.
  rewrite (Generate_loop U flags DB sqlOpen fetcherOf cmd driverName exampleDataSourceName
             db dbName names w Ho Hc Hopen Hdrv Hname Hne Hnames) in Hrun.
  fold sf in Hrun.
  destruct (generateTables U flags sf dbName names (optionsOfFlags flags) w)
    as [err w1] eqn:Hloop.
  cbn [fst snd] in Hrun. injection Hrun as -> ->.
  destruct (generateTables_rendered U flags sf dbName (optionsOfFlags flags) names w w' Hloop)
    as [Herr Hall].
  split; [exact Herr|]. intros t Hin. destruct (Hall t Hin) as (fds & Hfds & Hte).
  exists fds. split; [exact Hfds|]. split; [exact Hte|].
  now apply typeError_In.
Qed.

Lemma Generate_success_witness :
  stderr twoTablesDone = stderr emptyWorld +:+ announcements ["users"; "events"]
  /\ forall t, In t ["users"; "events"] ->
       exists fds,
         GetFieldDescriptors (sampleFetcherOf "mysql" tt) t = Ok fds
         /\ typeError latin1Tables fds = None
         /\ forall fd, In fd fds -> exists goType, getType latin1Tables fd = Ok goType.
Proof.
  apply (Generate_success latin1Tables twoTableFlags unit sampleOpen sampleFetcherOf
           "sqlm-gen-mysql" "mysql" "user:password@/shop" tt "shop" ["users"; "events"]
           emptyWorld twoTablesDone);
    try discriminate; vm_compute; reflexivity.
Defined.

(** ** Failures and edge cases of [generateTable] *)

(** X6: a failed [generateTable] changes nothing at all, and its error is
    the fetcher's, or that of the first field whose type is not mapped,
    or the one of opening the output file. *)
Theorem generateTable_failure (U : UnicodeTables) (flags : Flags.t)
        (sf : schemaFetcher) (dbName tableName : string) (opts : options)
        (e : error) (w w' : World) :
  generateTable U flags sf dbName tableName opts w = (Some e, w') ->
  w' = w
  /\ (GetFieldDescriptors sf tableName = Err e
      \/ exists fds,
          GetFieldDescriptors sf tableName = Ok fds
          /\ (typeError U fds = Some e
              \/ (typeError U fds = None
                  /\ (fs w !! outputFileOf flags tableName = Some (Present e)
                      \/ exists statErr,
                          fs w !! outputFileOf flags tableName
                          = Some (Unreachable statErr e))))).
Proof.
  rewrite generateTable_spec.
  destruct (GetFieldDescriptors sf tableName) as [fds|e0].
  - destruct (typeError U fds) as [e1|] eqn:Hte.
    + intros [= <- <-]. split; [reflexivity|]. right. exists fds. auto.
    + unfold openTruncWrite.
      destruct (fs w !! outputFileOf flags tableName) as [[c|e1|se e1]|] eqn:Hfs;
        intros [= <- <-]; (split; [reflexivity|]); right; exists fds;
        (split; [reflexivity|]); right; (split; [exact Hte|]); eauto.
  - intros [= <- <-]. split; [reflexivity|]. now left.
Qed.

Lemma generateTable_failure_witness :
  generateTable latin1Tables sampleFlags sampleFetcher "shop" "users" sampleOptions blockedWorld
    = (Some "open out/users.go: is a directory", blockedWorld)
  /\ snd (generateTable latin1Tables sampleFlags sampleFetcher "shop" "users" sampleOptions
                        blockedWorld) = blockedWorld.
Proof.
  assert (H : generateTable latin1Tables sampleFlags sampleFetcher "shop" "users"
                            sampleOptions blockedWorld
              = (Some "open out/users.go: is a directory",
                 snd (generateTable latin1Tables sampleFlags sampleFetcher "shop" "users"
                                    sampleOptions blockedWorld)))
    by (vm_compute; reflexivity).
  destruct (generateTable_failure latin1Tables sampleFlags sampleFetcher "shop" "users"
              sampleOptions _ blockedWorld _ H) as [Hw _].
  split; [now rewrite <- Hw at 2|exact Hw].
Defined.

(** X7: a table for which the fetcher returns no column at all is not an
    error: [generateTable] writes a file with an empty struct, without
    the import, and the accessor. *)
Theorem generateTable_no_columns (U : UnicodeTables) (flags : Flags.t)
        (sf : schemaFetcher) (dbName tableName : string) (opts : options) (w : World) :
  GetFieldDescriptors sf tableName = Ok [] ->
  canOpen w (outputFileOf flags tableName) = true ->
  let className := convertToExportedIdentifier U tableName (forceCases opts) in
  exists w',
    generateTable U flags sf dbName tableName opts w = (None, w')
    /\ writtenFile w' (outputFileOf flags tableName)
       = Some (newBuffWithBaseHeader dbName
               +:+ "type " +:+ className +:+ " struct {" +:+ nl
               +:+ "}" +:+ nl +:+ nl
               +:+ tableNameAccessor className tableName).
Proof.
  intros Hfds Hopen. cbv zeta. rewrite generateTable_spec, Hfds. cbn [typeError].
  unfold canOpen in Hopen. unfold openTruncWrite.
  eexists. split.
  - destruct (fs w !! outputFileOf flags tableName) as [[c|e1|se e1]|];
      try discriminate; reflexivity.
  - unfold writtenFile. cbn [fs]. rewrite lookup_insert_eq.
    unfold tableText. rewrite renderTable_shape. unfold structHead. cbn [linesText needsTime existsb].
    rewrite !append_assoc. reflexivity.
Qed.

Lemma generateTable_no_columns_witness :
  exists w',
    generateTable latin1Tables sampleFlags emptyTableFetcher "shop" "ghost" sampleOptions
                  emptyWorld = (None, w')
    /\ writtenFile w' (outputFileOf sampleFlags "ghost")
       = Some (newBuffWithBaseHeader "shop"
               +:+ "type " +:+ convertToExportedIdentifier latin1Tables "ghost" ["ID"]
               +:+ " struct {" +:+ nl
               +:+ "}" +:+ nl +:+ nl
               +:+ tableNameAccessor (convertToExportedIdentifier latin1Tables "ghost" ["ID"])
                                     "ghost").
Proof.
  apply (generateTable_no_columns latin1Tables sampleFlags emptyTableFetcher "shop" "ghost"
           sampleOptions emptyWorld); reflexivity.
Defined.

(** ** When the time package is imported *)

Lemma getType_time U fd :
  oneOf (strings_ToLower U (Type_ fd)) ["datetime"; "date"; "time"; "timestamp"] = true
  <-> (getType U fd = Ok "time.Time" \/ getType U fd = Ok "*time.Time").
Proof.
  unfold getType. generalize (strings_ToLower U (Type_ fd)) as t. intros t. split.
  - cbn [oneOf existsb]. rewrite !orb_true_iff.
    intros [H|[H|[H|[H|H]]]]; try discriminate;
      apply String.eqb_eq in H; subst t; destruct (AllowNull fd), (Unsigned fd);
        cbn; auto.
  - destruct (oneOf t ["tinyint"]);
      [destruct (Unsigned fd), (AllowNull fd); cbn; intros [[=]|[=]]|].
    destruct (oneOf t ["smallint"]);
      [destruct (Unsigned fd), (AllowNull fd); cbn; intros [[=]|[=]]|].
    destruct (oneOf t ["int"; "mediumint"]);
      [destruct (Unsigned fd), (AllowNull fd); cbn; intros [[=]|[=]]|].
    destruct (oneOf t ["bigint"; "integer"]);
      [destruct (Unsigned fd), (AllowNull fd); cbn; intros [[=]|[=]]|].
    destruct (oneOf t ["float"; "double"; "decimal"; "real"]);
      [destruct (Unsigned fd), (AllowNull fd); cbn; intros [[=]|[=]]|].
    destruct (oneOf t ["char"; "varchar"; "text"; "tinytext"; "mediumtext";
                       "longtext"; "enum"; "json"; "numeric"; "character varying"]);
      [destruct (Unsigned fd), (AllowNull fd); cbn; intros [[=]|[=]]|].
    destruct (oneOf t ["datetime"; "date"; "time"; "timestamp"]); [reflexivity|].
    destruct (oneOf t ["binary"; "varbinary"; "blob"; "tinyblob"; "mediumblob"; "longblob"]);
      [destruct (Unsigned fd), (AllowNull fd); cbn; intros [[=]|[=]]|].
    destruct (oneOf t ["geometry"; "point"; "linestring"; "polygon"; "multipoint";
                       "multilinestring"; "multipolygon"; "geometrycollection"]);
      [destruct (Unsigned fd), (AllowNull fd); cbn; intros [[=]|[=]]|].
    destruct (oneOf t ["bit"]);
      [destruct (Size fd =? 1), (Unsigned fd), (AllowNull fd); cbn; intros [[=]|[=]]|].
    intros [[=]|[=]].
Qed.

(** X8: the generated file has the import of the time package, right
    after the header, exactly when some field is declared, letter for
    letter, [datetime], [date], [time] or [timestamp]. When the fetcher
    reports every declared type in lower case, that is exactly when some
    field has the host type [time.Time] or [*time.Time]. *)
Theorem time_import_condition (U : UnicodeTables) (flags : Flags.t)
        (sf : schemaFetcher) (dbName tableName : string) (opts : options)
        (fds : list fieldDescriptor) (w w' : World) :
  GetFieldDescriptors sf tableName = Ok fds ->
  generateTable U flags sf dbName tableName opts w = (None, w') ->
  (exists rest,
      writtenFile w' (outputFileOf flags tableName)
      = Some (newBuffWithBaseHeader dbName
              +:+ (if needsTime fds then timeImport +:+ nl else "")
              +:+ "type " +:+ rest))
  /\ ((forall fd, In fd fds -> lowerCaseType U fd) ->
      (needsTime fds = true
       <-> exists fd, In fd fds
                      /\ (getType U fd = Ok "time.Time" \/ getType U fd = Ok "*time.Time"))).
Proof.
  intros Hfds Hgen. split.
  - rewrite generateTable_spec, Hfds in Hgen.
    destruct (typeError U fds); [discriminate|].
    apply openTruncWrite_ok in Hgen as ->.
    unfold writtenFile. cbn [fs]. rewrite lookup_insert_eq.
    unfold tableText. rewrite renderTable_shape. unfold structHead.
    eexists. rewrite !append_assoc. reflexivity.
  - intros Hlower. unfold needsTime. rewrite existsb_exists. split.
    + intros (fd & Hin & Hone). exists fd. split; [exact Hin|].
      apply getType_time. now rewrite (Hlower fd Hin).
    + intros (fd & Hin & Hty). exists fd. split; [exact Hin|].
      apply getType_time in Hty. now rewrite (Hlower fd Hin) in Hty.
Qed.

Lemma time_import_condition_witness :
  (forall fd, In fd [field "id" "int" false; field "name" "varchar" true;
                     field "created_at" "datetime" false] ->
              lowerCaseType latin1Tables fd)
  /\ exists rest,
      writtenFile usersWorld (outputFileOf sampleFlags "users")
      = Some (newBuffWithBaseHeader "shop" +:+ (timeImport +:+ nl) +:+ "type " +:+ rest).
Proof.
  split.
  - intros fd [<-|[<-|[<-|[]]]]; reflexivity.
  - assert (Hgen : generateTable latin1Tables sampleFlags sampleFetcher "shop" "users"
                                 sampleOptions emptyWorld = (None, usersWorld))
      by (vm_compute; reflexivity).
    destruct (time_import_condition latin1Tables sampleFlags sampleFetcher "shop" "users"
                sampleOptions _ emptyWorld usersWorld eq_refl Hgen) as [Hfile _].
    exact Hfile.
Defined.

(** ** More on the two name functions *)

Lemma byteval_inj c c' : byteval c = byteval c' -> c = c'.
Proof.
  unfold byteval. intros H. apply N2Z.inj in H.
  rewrite <- (ascii_N_embedding c), <- (ascii_N_embedding c'). now rewrite H.
Qed.

Lemma bytes_inj a : forall b, bytes a = bytes b -> a = b.
Proof.
  induction a as [|c a IH]; intros [|c' b]; cbn [bytes]; try discriminate; [reflexivity|].
  intros [= Hc Hb]. apply byteval_inj in Hc. subst c'. now rewrite (IH b Hb).
Qed.

Lemma wordChars_isASCII s :
  forallb isWordChar (bytes s) = true -> isASCII s = true.
Proof.
  unfold isASCII. induction (bytes s) as [|b l IH]; [reflexivity|].
  cbn [forallb]. intros [Hb Hl]%andb_true_iff. rewrite (IH Hl), andb_true_r.
  apply isWordChar_ascii in Hb. unfold RuneSelf. lia.
Qed.

(** A name of word characters only is left as it is by the substitution. *)
Lemma replaceNonIdentifier_fixed s :
  forallb isWordChar (bytes s) = true -> replaceNonIdentifier s = s.
Proof.
  intros Hw. apply bytes_inj. rewrite replaceNonIdentifier_bytes.
  rewrite runes_ascii by (now apply wordChars_isASCII).
  induction (bytes s) as [|b l IH]; [reflexivity|].
  cbn [forallb map] in *. apply andb_true_iff in Hw as [Hb Hl].
  now rewrite Hb, (IH Hl).
Qed.

(** X9: [ensureIdentifier] leaves a valid identifier (word characters
    only, not empty, no leading digit) as it is; so applying it twice is
    the same as applying it once. *)
Theorem ensureIdentifier_idempotent (name : string) :
  (forallb isWordChar (bytes name) = true -> name <> "" ->
   startsWithDigit name = false -> ensureIdentifier name = name)
  /\ ensureIdentifier (ensureIdentifier name) = ensureIdentifier name.
Proof.
  assert (Hfix : forall s, forallb isWordChar (bytes s) = true -> s <> "" ->
                           startsWithDigit s = false -> ensureIdentifier s = s).
  { intros s Hw Hne Hd. unfold ensureIdentifier.
    rewrite (replaceNonIdentifier_fixed s Hw), Hd.
    destruct (String.eqb_spec s ""); [contradiction|reflexivity]. }
  split; [apply Hfix|].
  pose proof (replaceNonIdentifier_word name) as Hw.
  unfold ensureIdentifier at 2 3.
  destruct (String.eqb_spec (replaceNonIdentifier name) "") as [E|Hne]; cbn [orb].
  - rewrite E. reflexivity.
  - destruct (startsWithDigit (replaceNonIdentifier name)) eqn:Hd.
    + apply Hfix; [|discriminate|reflexivity].
      rewrite (append_cons "_" ""), append_nil_l. cbn [bytes forallb]. exact Hw.
    + now apply Hfix.
Qed.

Lemma fold_splitStep_separators U rs :
  forallb (fun r => negb (IsLetter U r || IsDigit U r)) rs = true ->
  forall words next, fst (fold_left (splitStep U) rs (words, next)) = words.
Proof.
  induction rs as [|r rs IH]; intros H words next; [reflexivity|].
  cbn [forallb] in H. apply andb_true_iff in H as [Hr Hrs].
  cbn [fold_left]. unfold splitStep at 2.
  apply negb_true_iff in Hr. rewrite Hr. now apply IH.
Qed.

(** X10: a name without any letter or digit, the empty name included,
    becomes the identifier [E], whatever the force-case words. *)
Theorem convertToExportedIdentifier_no_letters (U : UnicodeTables)
        (s : string) (forceCases : list string) :
  noLetterOrDigit U s = true ->
  convertToExportedIdentifier U s forceCases = "E".
Proof.
  intros H. unfold convertToExportedIdentifier, splitWords.
  rewrite (fold_splitStep_separators U (runes s) H). reflexivity.
Qed.

Lemma convertToExportedIdentifier_no_letters_witness :
  noLetterOrDigit latin1Tables "__-_" = true
  /\ convertToExportedIdentifier latin1Tables "__-_" ["ID"] = "E".
Proof.
  split; [reflexivity|].
  apply (convertToExportedIdentifier_no_letters latin1Tables "__-_" ["ID"]). reflexivity.
Defined.

(** ** Comments *)

Lemma replaceNewlines_bytes s :
  bytes (replaceNewlines s) = map (fun b => if b =? 10 then 32 else b) (bytes s).
Proof.
  induction s as [|c s IH]; [reflexivity|].
  cbn [replaceNewlines bytes map]. rewrite IH.
  destruct (byteval c =? 10); reflexivity.
Qed.

(** X11: the comment of a column stays on its own line of the generated
    file: its text, every newline turned into a space and nothing else
    changed, follows [//] and holds no newline; the one newline of the
    comment line is its last byte. A column without comment gets no
    comment line. *)
Theorem comment_stays_on_its_line (fd : fieldDescriptor) :
  (forall U opts lines need,
      fieldLines U fd opts = Ok (lines, need) ->
      exists goType, getType U fd = Ok goType
                     /\ lines = commentLine fd +:+ fieldLine U fd opts goType)
  /\ (Comment fd = "" -> commentLine fd = "")
  /\ (Comment fd <> "" ->
      commentLine fd = tab +:+ "// " +:+ replaceNewlines (Comment fd) +:+ nl)
  /\ String.length (replaceNewlines (Comment fd)) = String.length (Comment fd)
  /\ bytes (replaceNewlines (Comment fd))
     = map (fun b => if b =? 10 then 32 else b) (bytes (Comment fd))
  /\ forallb (fun b => negb (b =? 10)) (bytes (replaceNewlines (Comment fd))) = true.
Proof.
  split.
  { intros U opts lines need. unfold fieldLines.
    destruct (getType U fd) as [goType|e]; [|discriminate].
    intros [= <- _]. exists goType. split; reflexivity. }
  unfold commentLine. split; [intros ->; reflexivity|]. split.
  { intros Hne. destruct (String.eqb_spec (Comment fd) ""); [contradiction|reflexivity]. }
  split.
  { induction (Comment fd) as [|c s IH]; [reflexivity|].
    cbn [replaceNewlines String.length]. now rewrite IH. }
  split; [apply replaceNewlines_bytes|].
  rewrite replaceNewlines_bytes. induction (bytes (Comment fd)) as [|b l IH]; [reflexivity|].
  cbn [map forallb]. rewrite IH, andb_true_r.
  destruct (b =? 10) eqn:E; [reflexivity|]. now rewrite E.
Qed.

(** ** The table and force-case lists of the flags *)

Lemma string_of_list_ascii_snoc l c :
  string_of_list_ascii (l ++ [c]) = string_of_list_ascii l +:+ String c "".
Proof.
  induction l as [|x l IH]; [reflexivity|].
  cbn [app string_of_list_ascii]. now rewrite IH, append_cons.
Qed.

Lemma splitComma_nonempty s : forall cur, splitComma cur s <> [].
Proof.
  induction s as [|c s IH]; intros cur; cbn [splitComma]; [discriminate|].
  destruct (byteval c =? 44); [discriminate|apply IH].
Qed.

Lemma concat_comma_cons x xs :
  xs <> [] -> String.concat "," (x :: xs) = x +:+ "," +:+ String.concat "," xs.
Proof. destruct xs; [congruence|reflexivity]. Qed.

Lemma splitComma_join s :
  forall cur,
    String.concat "," (splitComma cur s) = string_of_list_ascii (rev cur) +:+ s.
Proof.
  induction s as [|c s IH]; intros cur; cbn [splitComma].
  - cbn [String.concat]. now rewrite append_nil_r.
  - destruct (byteval c =? 44) eqn:E.
    + rewrite concat_comma_cons by apply splitComma_nonempty.
      rewrite (IH []). cbn [rev string_of_list_ascii]. rewrite append_nil_l.
      apply Z.eqb_eq in E. change 44 with (byteval ","%char) in E.
      apply byteval_inj in E. now subst c.
    + rewrite (IH (c :: cur)). cbn [rev].
      now rewrite string_of_list_ascii_snoc, append_assoc.
Qed.

Lemma forallb_rev {A} (f : A -> bool) l : forallb f (rev l) = forallb f l.
Proof.
  induction l as [|x l IH]; [reflexivity|].
  cbn [rev forallb]. rewrite forallb_app, IH. cbn [forallb].
  now rewrite andb_true_r, andb_comm.
Qed.

Lemma splitComma_no_comma s :
  forall cur,
    forallb (fun c => negb (byteval c =? 44)) cur = true ->
    forallb (fun piece => forallb (fun b => negb (b =? 44)) (bytes piece))
            (splitComma cur s) = true.
Proof.
  assert (Hstr : forall l, forallb (fun c => negb (byteval c =? 44)) l = true ->
                           forallb (fun b => negb (b =? 44))
                                   (bytes (string_of_list_ascii l)) = true).
  { induction l as [|x l IHl]; [reflexivity|]. cbn [forallb string_of_list_ascii bytes].
    intros [Hx Hl]%andb_true_iff. now rewrite Hx, (IHl Hl). }
  induction s as [|c s IH]; intros cur Hcur; cbn [splitComma].
  - cbn [forallb]. rewrite andb_true_r. apply Hstr.
    now rewrite forallb_rev.
  - destruct (byteval c =? 44) eqn:E.
    + cbn [forallb]. rewrite (IH [] eq_refl), andb_true_r. apply Hstr.
      now rewrite forallb_rev.
    + apply IH. cbn [forallb]. now rewrite E, Hcur.
Qed.

(** X12: a non-empty flag [-t] (and likewise [-forcecases]) is cut at
    its commas: the list is never empty, no entry holds a comma, and the
    entries joined by commas give the flag back; with [-t] given the
    fetcher is not asked for the table names. An empty flag gives the
    empty list. *)
Theorem flag_lists (flags : Flags.t) (sf : schemaFetcher) :
  let opts := optionsOfFlags flags in
  (Flags.tables flags = "" ->
   tableNames opts = [] /\ resolvedNames flags sf = GetTableNames sf)
  /\ (Flags.tables flags <> "" ->
      tableNames opts <> []
      /\ String.concat "," (tableNames opts) = Flags.tables flags
      /\ forallb (fun name => forallb (fun b => negb (b =? 44)) (bytes name))
                 (tableNames opts) = true
      /\ resolvedNames flags sf = Ok (tableNames opts))
  /\ (Flags.forcecases flags = "" -> forceCases opts = [])
  /\ (Flags.forcecases flags <> "" ->
      forceCases opts <> []
      /\ String.concat "," (forceCases opts) = Flags.forcecases flags).
Proof.
  cbv zeta. unfold resolvedNames, optionsOfFlags. cbn [tableNames forceCases].
  repeat apply conj.
  - intros ->. split; reflexivity.
  - intros Hne. destruct (String.eqb_spec (Flags.tables flags) ""); [contradiction|].
    unfold strings_Split.
    pose proof (splitComma_nonempty (Flags.tables flags) []) as Hn.
    repeat apply conj; [exact Hn|apply (splitComma_join _ [])
                       |now apply splitComma_no_comma|].
    destruct (splitComma [] (Flags.tables flags)); [congruence|reflexivity].
  - intros ->. reflexivity.
  - intros Hne. destruct (String.eqb_spec (Flags.forcecases flags) ""); [contradiction|].
    split; [apply splitComma_nonempty|apply (splitComma_join _ [])].
Qed.

(** ** The program sqlm-gen-sqlite3 *)

(** X13: the main of sqlm-gen-sqlite3 asks [Generate] for the driver
    [mysql]. In a program where sql.Open knows no driver of that name it
    never gets to a table: whatever the flags, it changes no file, and it
    ends with the usage and status 1 or with the panic on the error of
    sql.Open. *)
Theorem sqlite3_program_generates_nothing (U : UnicodeTables) (flags : Flags.t)
        (DB : Type) (sqlOpen : string -> string -> result DB)
        (fetcherOf : string -> DB -> schemaFetcher) (cmd : string) (w : World) :
  (forall dataSource, exists e, sqlOpen "mysql" dataSource = Err e) ->
  let run := sqlm_gen_sqlite3.main U flags DB sqlOpen fetcherOf cmd w in
  fs (snd run) = fs w
  /\ (fst run = Exited 1
      \/ exists e, sqlOpen "mysql" (Flags.databaseConnection flags) = Err e
                   /\ fst run = Panicked e).
Proof.
  intros Hopen. cbv zeta. unfold sqlm_gen_sqlite3.main, bind, ret, Generate.
  destruct (Flags.outputPath flags =? "")%string; [split; [reflexivity|now left]|].
  destruct (Flags.databaseConnection flags =? "")%string; [split; [reflexivity|now left]|].
  cbv zeta.
  change (dataSourceName (optionsOfFlags flags)) with (Flags.databaseConnection flags).
  destruct (Hopen (Flags.databaseConnection flags)) as [e He]. rewrite He.
  split; [reflexivity|]. right. exists e. split; reflexivity.
Qed.

Lemma sqlite3_program_generates_nothing_witness :
  (forall dataSource, exists e, openRegistered ["sqlite3"] "mysql" dataSource = Err e)
  /\ fst (sqlm_gen_sqlite3.main latin1Tables sampleFlags unit (openRegistered ["sqlite3"])
                                sampleFetcherOf "sqlm-gen-sqlite3" emptyWorld)
     = Panicked ("sql: unknown driver " +:+ dquote +:+ "mysql" +:+ dquote
                 +:+ " (forgotten import?)").
Proof.
  assert (H : forall dataSource,
             exists e, openRegistered ["sqlite3"] "mysql" dataSource = Err e)
    by (intros dataSource; eexists; reflexivity).
  split; [exact H|].
  destruct (sqlite3_program_generates_nothing latin1Tables sampleFlags unit
              (openRegistered ["sqlite3"]) sampleFetcherOf "sqlm-gen-sqlite3" emptyWorld H)
    as [_ [Hexit|(e & He & Hpanic)]].
  - discriminate Hexit.
  - rewrite Hpanic. injection He as <-. reflexivity.
Defined.

(** ** What the normalizer keeps of a name *)

Lemma flatBytes_app ws ws' : flatBytes (ws ++ ws') = (flatBytes ws ++ flatBytes ws')%list.
Proof. unfold flatBytes. now rewrite map_app, concat_app. Qed.

Lemma flatBytes_appendToLast words x :
  words <> [] -> flatBytes (appendToLast words x) = (flatBytes words ++ bytes x)%list.
Proof.
  destruct words as [|w0 ws0] using rev_ind; [congruence|]. intros _.
  unfold appendToLast. rewrite rev_unit, rev_involutive, !flatBytes_app.
  unfold flatBytes. cbn [map List.concat]. rewrite bytes_app, !app_nil_r.
  now rewrite app_assoc.
Qed.

Section Letters.
Variable U : UnicodeTables.

Lemma letterOrDigit_ascii_eq r :
  0 <= r < 128 -> IsLetter U r || IsDigit U r = isAsciiAlnum r.
Proof.
  intros Hr. unfold IsLetter, IsDigit. rewrite inLatin1_ascii by assumption.
  unfold latin1Letter, isAsciiAlnum, isAsciiUpper, isAsciiLower, isAsciiDigit.
  apply Bool.eq_iff_eq_true. split; intros H; lia.
Qed.

Lemma asciiLower_ToUpper r :
  isAsciiAlnum r = true -> asciiLower (ToUpper U r) = asciiLower r.
Proof.
  intros Hr. pose proof (isAsciiAlnum_range r Hr) as Hb.
  unfold ToUpper, RuneSelf. replace (r <? 128) with true by lia.
  unfold asciiLower, isAsciiLower, isAsciiUpper.
  destruct ((97 <=? r) && (r <=? 122)) eqn:E.
  - replace ((65 <=? r - 32) && (r - 32 <=? 90)) with true by lia.
    replace ((65 <=? r) && (r <=? 90)) with false by lia. lia.
  - reflexivity.
Qed.

Lemma splitStep_letters words next r :
  0 <= r < 128 -> (next = false -> words <> []) ->
  let st := splitStep U (words, next) r in
  map asciiLower (flatBytes (fst st))
  = (map asciiLower (flatBytes words) ++ map asciiLower (List.filter isAsciiAlnum [r]))%list
  /\ (snd st = false -> fst st <> []).
Proof.
  intros Hr Hinv. cbv zeta. unfold splitStep.
  rewrite (letterOrDigit_ascii_eq r Hr). cbn [List.filter].
  destruct (isAsciiAlnum r) eqn:Ha.
  - destruct next; cbn [fst snd].
    + rewrite appendToLast_snoc. split.
      * rewrite flatBytes_app. unfold flatBytes at 2. cbn [map List.concat].
        rewrite append_nil_l, app_nil_r.
        rewrite encodeRune_ascii
          by (apply isAsciiAlnum_range; now apply ToUpper_ascii).
        rewrite map_app. cbn [map]. now rewrite asciiLower_ToUpper.
      * intros _ H. now apply app_eq_nil in H as [_ [=]].
    + split.
      * rewrite flatBytes_appendToLast by (now apply Hinv).
        rewrite encodeRune_ascii by assumption. now rewrite map_app.
      * intros _. apply appendToLast_nonempty. now apply Hinv.
  - cbn [fst snd map]. rewrite app_nil_r. split; [reflexivity|discriminate].
Qed.

Lemma fold_splitStep_letters rs :
  forall words next,
    Forall (fun r => 0 <= r < 128) rs -> (next = false -> words <> []) ->
    map asciiLower (flatBytes (fst (fold_left (splitStep U) rs (words, next))))
    = (map asciiLower (flatBytes words) ++ map asciiLower (List.filter isAsciiAlnum rs))%list.
Proof.
  induction rs as [|r rs IH]; intros words next Hrs Hinv.
  - cbn [fold_left fst List.filter map]. now rewrite app_nil_r.
  - apply Forall_cons_iff in Hrs as [Hr Hrs]. cbn [fold_left].
    destruct (splitStep_letters words next r Hr Hinv) as [Hstep Hinv'].
    destruct (splitStep U (words, next) r) as [words' next']. cbn [fst snd] in *.
    rewrite (IH words' next' Hrs Hinv'), Hstep.
    replace (List.filter isAsciiAlnum (r :: rs))
      with ((List.filter isAsciiAlnum [r]) ++ List.filter isAsciiAlnum rs)%list
      by (cbn [List.filter]; destruct (isAsciiAlnum r); reflexivity).
    now rewrite map_app, app_assoc.
Qed.

Lemma EqualFold_ascii_lower s :
  forall t, isASCII t = true -> alnumString s = true ->
            strings_EqualFold U s t = true ->
            map asciiLower (bytes s) = map asciiLower (bytes t).
Proof.
  unfold isASCII, alnumString.
  induction s as [|a s IH]; intros [|b t] Ht Hs Heq; try reflexivity; try discriminate.
  cbn [bytes forallb map] in *.
  apply andb_true_iff in Ht as [Hb Ht]. apply andb_true_iff in Hs as [Ha Hs].
  pose proof (isAsciiAlnum_range _ Ha) as Hra.
  assert (Hrb : 0 <= byteval b < 128)
    by (pose proof (byteval_range b); unfold RuneSelf in Hb; lia).
  pose proof (lor_ascii _ _ Hra Hrb) as Hlor.
  cbn [strings_EqualFold] in Heq.
  replace (RuneSelf <=? Z.lor (byteval a) (byteval b)) with false in Heq
    by (unfold RuneSelf; lia).
  destruct (byteval b =? byteval a) eqn:E1.
  - apply Z.eqb_eq in E1. rewrite E1. f_equal. now apply IH.
  - destruct (isAsciiUpper (Z.min (byteval a) (byteval b))
              && (Z.max (byteval a) (byteval b) =? Z.min (byteval a) (byteval b) + 32)) eqn:E2;
      [|discriminate].
    rewrite (IH t Ht Hs Heq). f_equal.
    unfold asciiLower, isAsciiUpper in *.
    destruct ((65 <=? byteval a) && (byteval a <=? 90)) eqn:Ea,
             ((65 <=? byteval b) && (byteval b <=? 90)) eqn:Eb; lia.
Qed.

Lemma forceCase_lower word forceCases :
  forallb isASCII forceCases = true -> alnumString word = true ->
  map asciiLower (bytes (forceCase U word forceCases)) = map asciiLower (bytes word).
Proof.
  intros Hf Hw. induction forceCases as [|caseWord rest IH]; [reflexivity|].
  cbn [forallb] in Hf. apply andb_true_iff in Hf as [Hc Hrest].
  cbn [forceCase]. destruct (strings_EqualFold U word caseWord) eqn:E.
  - symmetry. now apply EqualFold_ascii_lower.
  - now apply IH.
Qed.

Lemma joinWords_lower words forceCases :
  forallb isASCII forceCases = true -> forallb alnumString words = true ->
  map asciiLower (bytes (joinWords U words forceCases)) = map asciiLower (flatBytes words).
Proof.
  intros Hf. unfold joinWords.
  assert (H : forall acc,
             forallb alnumString words = true ->
             map asciiLower
                 (bytes (fold_left (fun result word => result +:+ forceCase U word forceCases)
                                   words acc))
             = (map asciiLower (bytes acc) ++ map asciiLower (flatBytes words))%list).
  { induction words as [|w ws IH]; intros acc Hws.
    - cbn [fold_left]. unfold flatBytes. cbn [map List.concat]. now rewrite app_nil_r.
    - cbn [forallb] in Hws. apply andb_true_iff in Hws as [Hw Hws].
      cbn [fold_left]. rewrite (IH _ Hws), bytes_app, map_app.
      rewrite (forceCase_lower w forceCases Hf Hw).
      unfold flatBytes. cbn [map List.concat]. now rewrite map_app, app_assoc. }
  intros Hws. now rewrite (H "" Hws).
Qed.

End Letters.

(** X14: for a name and force-case words in ASCII, the identifier is
    the letters and digits of the name, in their order and up to letter
    case, with every other character dropped, behind the letter [E] when
    that prefix is needed. *)
Theorem convertToExportedIdentifier_keeps_letters (U : UnicodeTables)
        (s : string) (forceCases : list string) :
  isASCII s = true -> forallb isASCII forceCases = true ->
  exists joined,
    map asciiLower (bytes joined) = map asciiLower (List.filter isAsciiAlnum (bytes s))
    /\ convertToExportedIdentifier U s forceCases
       = (if needsPrefix U joined then "E" +:+ joined else joined).
Proof.
  intros Hs Hf. exists (joinWords U (splitWords U s) forceCases). split; [|reflexivity].
  rewrite (joinWords_lower U _ _ Hf (splitWords_alnum U s Hs)).
  unfold splitWords. rewrite runes_ascii by assumption.
  rewrite (fold_splitStep_letters U (bytes s) [] true (bytes_ascii_range s Hs))
    by discriminate.
  reflexivity.
Qed.

Lemma convertToExportedIdentifier_keeps_letters_witness :
  exists joined,
    map asciiLower (bytes joined)
    = map asciiLower (List.filter isAsciiAlnum (bytes "user_id"))
    /\ convertToExportedIdentifier latin1Tables "user_id" ["ID"]
       = (if needsPrefix latin1Tables joined then "E" +:+ joined else joined).
Proof.
  apply (convertToExportedIdentifier_keeps_letters latin1Tables "user_id" ["ID"]);
    reflexivity.
Defined.

(** ** Writing where no file is *)

(** X15: when os.Stat finds nothing at the output path, [writeToFile]
    goes straight to os.OpenFile, forced or not, without printing the
    question or reading an answer. If the path is free to be created, the
    file is created with the buffer as its content and no error is
    returned; if it cannot be opened (the output directory is missing,
    say), the error of os.OpenFile is returned and nothing has changed. *)
Theorem writeToFile_creates (buffer outputFile : string) (force : bool) (w : World) :
  fst (fst (pathExists outputFile w)) = false ->
  writeToFile buffer outputFile force w = openTruncWrite outputFile buffer w
  /\ (fs w !! outputFile = None ->
      writeToFile buffer outputFile force w = (None, overwritten w outputFile buffer))
  /\ (forall statErr e,
         fs w !! outputFile = Some (Unreachable statErr e) ->
         writeToFile buffer outputFile force w = (Some e, w))
  /\ (fs w !! outputFile = None
      \/ exists statErr e, fs w !! outputFile = Some (Unreachable statErr e)).
Proof.
  intros Hex.
  assert (Hw : writeToFile buffer outputFile force w = openTruncWrite outputFile buffer w).
  { destruct force; [apply writeToFile_forced|]. now rewrite writeToFile_unforced, Hex. }
  split; [exact Hw|]. rewrite Hw. unfold openTruncWrite.
  split; [intros ->; reflexivity|]. split; [intros statErr e ->; reflexivity|].
  revert Hex. unfold pathExists, bind, osStat, isNotExist, ret.
  destruct (fs w !! outputFile) as [[c|e|se e]|] eqn:E; cbn; rewrite ?E; cbn;
    try discriminate; eauto.
Qed.

Lemma writeToFile_creates_witness :
  (fst (fst (pathExists "out/users.go" emptyWorld)) = false
   /\ writeToFile "package shop" "out/users.go" false emptyWorld
      = (None, overwritten emptyWorld "out/users.go" "package shop"))
  /\ (fst (fst (pathExists "out/users.go" noDirectoryWorld)) = false
      /\ writeToFile "package shop" "out/users.go" false noDirectoryWorld
         = (Some "open out/users.go: no such file or directory", noDirectoryWorld)).
Proof.
  split.
  - split; [reflexivity|].
    destruct (writeToFile_creates "package shop" "out/users.go" false emptyWorld eq_refl)
      as (_ & Hnew & _).
    apply Hnew. reflexivity.
  - split; [reflexivity|].
    destruct (writeToFile_creates "package shop" "out/users.go" false noDirectoryWorld
                eq_refl) as (_ & _ & Hmissing & _).
    apply (Hmissing None). reflexivity.
Defined.

(** ** The programs sqlm-gen-mysql and sqlm-gen-postgres *)

Lemma Generate_nil_inv U flags DB sqlOpen fetcherOf cmd driverName example w w' :
  Generate U flags DB sqlOpen fetcherOf cmd driverName example w = (Return None, w') ->
  oneOf driverName ["mysql"; "sqlite3"; "postgres"] = true ->
  allRendered U flags DB sqlOpen fetcherOf driverName.
Proof.
  unfold Generate, printUsageAndExit, bind, ret, printStderr, allRendered.
  destruct (String.eqb_spec (Flags.outputPath flags) "") as [|Ho]; [discriminate|].
  destruct (String.eqb_spec (Flags.databaseConnection flags) "") as [|Hc]; [discriminate|].
  cbv zeta.
  change (dataSourceName (optionsOfFlags flags)) with (Flags.databaseConnection flags).
  destruct (sqlOpen driverName _) as [db|e] eqn:Hopen; [|discriminate].
  unfold getSchemaFetcherFactory. intros H Hdrv. rewrite Hdrv in H.
  destruct (GetDatabaseName (fetcherOf driverName db)) as [dbName|e] eqn:Hname;
    [|discriminate].
  destruct (String.eqb_spec dbName "") as [|Hne]; [discriminate|].
  fold (resolvedNames flags (fetcherOf driverName db)) in H.
  destruct (resolvedNames flags (fetcherOf driverName db)) as [names|e] eqn:Hnames;
    [|discriminate].
  rewrite generateTables_tableNames in H.
  destruct (generateTables U flags (fetcherOf driverName db) dbName names
                           (optionsOfFlags flags) w) as [err w1] eqn:Hloop.
  injection H as -> ->.
  split; [exact Ho|]. split; [exact Hc|].
  exists db, dbName, names.
  repeat match goal with
         | |- _ /\ _ => split; [first [assumption|reflexivity]|]
         end.
  exact (proj2 (generateTables_rendered U flags _ dbName _ names w w' Hloop)).
Qed.

(** X16: the programs sqlm-gen-mysql and sqlm-gen-postgres return from
    [main] without exit or panic only when both flags were given, the
    connection of their own driver was opened, the database has a name,
    and for every table of the list the fetcher returned the columns and
    the type of every column was mapped. *)
Theorem programs_finish_when_generated (U : UnicodeTables) (flags : Flags.t)
        (DB : Type) (sqlOpen : string -> string -> result DB)
        (fetcherOf : string -> DB -> schemaFetcher) (cmd : string) (w w' : World) :
  (sqlm_gen_mysql.main U flags DB sqlOpen fetcherOf cmd w = (Finished, w') ->
   allRendered U flags DB sqlOpen fetcherOf "mysql")
  /\ (sqlm_gen_postgres.main U flags DB sqlOpen fetcherOf cmd w = (Finished, w') ->
      allRendered U flags DB sqlOpen fetcherOf "postgres").
Proof.
  split; unfold sqlm_gen_mysql.main, sqlm_gen_postgres.main, bind, ret;
    match goal with
    | |- context [Generate ?U ?f ?D ?o ?ft ?c ?d ?e ?w] =>
      destruct (Generate U f D o ft c d e w) as [[code|[err|]] w1] eqn:Hrun
    end; cbn [panicOnError]; try discriminate;
    intros [= <-]; (eapply Generate_nil_inv; [exact Hrun|reflexivity]).
Qed.

Lemma programs_finish_when_generated_witness :
  fst (sqlm_gen_mysql.main latin1Tables twoTableFlags unit sampleOpen sampleFetcherOf
                           "sqlm-gen-mysql" emptyWorld) = Finished
  /\ allRendered latin1Tables twoTableFlags unit sampleOpen sampleFetcherOf "mysql".
Proof.
  split; [vm_compute; reflexivity|].
  apply (programs_finish_when_generated latin1Tables twoTableFlags unit sampleOpen
           sampleFetcherOf "sqlm-gen-mysql" emptyWorld
           (snd (sqlm_gen_mysql.main latin1Tables twoTableFlags unit sampleOpen
                                     sampleFetcherOf "sqlm-gen-mysql" emptyWorld))).
  vm_compute. reflexivity.
Defined.

